(** * Tai Chi AI rehabilitation program: a shallow embedding of the agents

    The development follows [src/tai_chi_ai/core/ai_gents.py] and
    [src/tai_chi_ai/data/models.py]:

    - Python [int] values are [Z]; pandas means are exact rationals
      ([option Q], [None] standing for NaN on an empty column);
    - Python [str] values are [string]; [in] on strings is substring search;
    - a [dict] used as a record is a [Record]; a key that may be absent is an
      [option] field; a [dict] that is iterated (the injury profile) is an
      association list in insertion order;
    - a raised [KeyError] is the left summand of [result]. *)

From Stdlib Require Import ZArith QArith List String Ascii Bool Lia Lqa.
Import ListNotations.

Local Open Scope string_scope.
Local Open Scope Z_scope.
Local Open Scope list_scope.

(** ** Exceptions *)

Inductive exn : Type :=
| KeyError (key : string)
| ValidationError (field : string).

Definition result (A : Type) : Type := (exn + A)%type.

Definition ret {A : Type} (a : A) : result A := inr a.
Definition raise {A : Type} (e : exn) : result A := inl e.

Definition bind {A B : Type} (c : result A) (k : A -> result B) : result B :=
  match c with
  | inl e => inl e
  | inr a => k a
  end.

Notation "x <- c ;; k" := (bind c (fun x => k))
  (at level 61, c at next level, right associativity).

(** [for x in xs: acc = body(acc, x)], stopping at the first exception. *)
Fixpoint for_each {A S : Type} (body : S -> A -> result S) (xs : list A) (acc : S)
  : result S :=
  match xs with
  | [] => ret acc
  | x :: xs' => acc' <- body acc x ;; for_each body xs' acc'
  end.

(** ** Python string operations *)

Module Py.

(** [needle in hay] on [str]. *)
Fixpoint contains (needle hay : string) : bool :=
  String.prefix needle hay ||
  match hay with
  | EmptyString => false
  | String _ rest => contains needle rest
  end.

(** [str.lower] on ASCII text. *)
Definition lower_char (c : ascii) : ascii :=
  let n := nat_of_ascii c in
  if (Nat.leb 65 n && Nat.leb n 90)%bool then ascii_of_nat (n + 32) else c.

Fixpoint lower (s : string) : string :=
  match s with
  | EmptyString => EmptyString
  | String c rest => String (lower_char c) (lower rest)
  end.

(** [x in [a, b, ...]] on strings. *)
Definition mem (x : string) (xs : list string) : bool :=
  existsb (String.eqb x) xs.

(** [any(p(x) for x in xs)]. *)
Definition any {A : Type} (p : A -> bool) (xs : list A) : bool := existsb p xs.

(** [all(p(x) for x in xs)]. *)
Definition all {A : Type} (p : A -> bool) (xs : list A) : bool := forallb p xs.

(** [len(xs)]. *)
Definition len {A : Type} (xs : list A) : Z := Z.of_nat (List.length xs).

(** [xs[-n:]] for [n > 0]. *)
Definition last_n {A : Type} (n : nat) (xs : list A) : list A :=
  skipn (List.length xs - n) xs.

End Py.

(** ** data/models.py *)

Inductive BodyPart : Type :=
| LEFT_SHOULDER | RIGHT_SHOULDER | LEFT_CALF | LOWER_BACK
| NECK | RIGHT_CALF | UPPER_BACK | HIPS.

Inductive InjurySeverity : Type := MILD | MODERATE | SEVERE.

Inductive WorkoutPhase : Type := FOUNDATION | BUILDING | INTEGRATION | MASTERY.

Definition BodyPart_value (b : BodyPart) : string :=
  match b with
  | LEFT_SHOULDER => "left_shoulder"
  | RIGHT_SHOULDER => "right_shoulder"
  | LEFT_CALF => "left_calf"
  | LOWER_BACK => "lower_back"
  | NECK => "neck"
  | RIGHT_CALF => "right_calf"
  | UPPER_BACK => "upper_back"
  | HIPS => "hips"
  end.

Definition InjurySeverity_value (s : InjurySeverity) : string :=
  match s with
  | MILD => "mild"
  | MODERATE => "moderate"
  | SEVERE => "severe"
  end.

Definition WorkoutPhase_value (p : WorkoutPhase) : string :=
  match p with
  | FOUNDATION => "foundation"
  | BUILDING => "building"
  | INTEGRATION => "integration"
  | MASTERY => "mastery"
  end.

(** The injury profile [Dict[BodyPart, InjurySeverity]], in insertion order. *)
Definition InjuryProfile : Type := list (BodyPart * InjurySeverity).

(** A phase argument: [Some p] for one of the four members of [WorkoutPhase],
    [None] for any other value a caller passes. *)
Definition PhaseArg : Type := option WorkoutPhase.

(** An exercise dict: ["category"], ["name"], ["duration"], and the
    ["modifications"] key, which is only present once it has been set. *)
Record Exercise : Type := mkExercise {
  category : string;
  name : string;
  duration : Z;
  ex_modifications : option (list string)
}.

(** A session dict as the tracker and the monitor receive it; [None] is an
    absent key. *)
Record SessionData : Type := mkSessionData {
  sd_phase : option WorkoutPhase;
  sd_week : option Z;
  sd_duration_minutes : option Z;
  sd_pain_level : option Z;
  sd_fatigue_level : option Z;
  sd_mood_level : option Z;
  sd_exercises : option (list Exercise);
  sd_modifications : option (list string);
  sd_completion_percentage : option Z;
  sd_notes : option string
}.

(** [d.get(key, default)]. *)
Definition get {A : Type} (field : option A) (default : A) : A :=
  match field with
  | Some v => v
  | None => default
  end.

(** [d[key]]. *)
Definition item {A : Type} (key : string) (field : option A) : result A :=
  match field with
  | Some v => ret v
  | None => raise (KeyError key)
  end.

(** ** AIAgent: the knowledge base *)

Module AIAgent.

Record Modification : Type := mkModification {
  avoid : list string;
  modify : list string;
  compensatory : list string
}.

Definition shoulder_entry : Modification :=
  {| avoid := ["high arm raises"; "shoulder rotations"; "weight bearing on arms"];
     modify := ["keep arms below shoulder height"; "reduce range of motion";
                "focus on lower body"];
     compensatory := ["leg strength"; "core stability"; "breathing techniques"] |}.

(** [_load_injury_modifications]: a dict with four keys. *)
Definition _load_injury_modifications (b : BodyPart) : option Modification :=
  match b with
  | LEFT_SHOULDER => Some shoulder_entry
  | RIGHT_SHOULDER => Some shoulder_entry
  | LEFT_CALF =>
      Some {| avoid := ["deep stances"; "jumping"; "prolonged standing"];
              modify := ["shorter stances"; "chair support"; "reduced duration"];
              compensatory := ["upper body flow"; "seated practice"; "breathing focus"] |}
  | LOWER_BACK =>
      Some {| avoid := ["forward bends"; "twisting"; "arching"];
              modify := ["maintain neutral spine"; "bend knees"; "use support"];
              compensatory := ["gentle core engagement"; "postural awareness";
                               "gradual progression"] |}
  | _ => None
  end.

(** Whether [body_part] is a key of that dict. *)
Definition supported (body_part : BodyPart) : bool :=
  match _load_injury_modifications body_part with
  | Some _ => true
  | None => false
  end.

(** [knowledge_base["injury_modifications"][body_part]]. *)
Definition injury_modifications (b : BodyPart) : result Modification :=
  item (BodyPart_value b) (_load_injury_modifications b).

(** [_load_progression_rules()["phase_duration_weeks"]]. *)
Definition phase_duration_weeks (p : WorkoutPhase) : Z :=
  match p with
  | FOUNDATION => 12
  | BUILDING => 12
  | INTEGRATION => 12
  | MASTERY => 16
  end.

End AIAgent.


(** ** TaiChiCoachAgent *)

Module Coach.

(** The dict built by [analyze_injury_impact]. *)
Record ImpactAssessment : Type := mkImpact {
  restrictions : list string;
  modifications : list string;
  focus_areas : list string;
  compensatory_strategies : list string;
  risk_factors : list string;
  rehabilitation_focus : list string
}.

Definition empty_impact : ImpactAssessment :=
  {| restrictions := []; modifications := []; focus_areas := [];
     compensatory_strategies := []; risk_factors := []; rehabilitation_focus := [] |}.

(** [f"{restriction} ({severity.value})"]. *)
Definition annotate (severity : InjurySeverity) (restriction : string) : string :=
  (restriction ++ " (" ++ InjurySeverity_value severity ++ ")")%string.

(** The focus areas and the rehabilitation focus of the [if/elif/elif] chain
    on the body part; a body part outside the chain adds nothing. *)
Definition body_part_focus (body_part : BodyPart) : list string * list string :=
  match body_part with
  | LEFT_SHOULDER | RIGHT_SHOULDER =>
      (["lower body stability and rooting"; "deep diaphragmatic breathing";
        "mental visualization of arm movements"],
       ["gradual shoulder mobility restoration"])
  | LEFT_CALF =>
      (["upper body flow and coordination"; "seated Tai Chi practice";
        "breathing techniques for circulation"],
       ["progressive calf strengthening"])
  | LOWER_BACK =>
      (["core engagement and stabilization"; "postural alignment awareness";
        "gentle weight shifting"],
       ["spinal stabilization and core strength"])
  | _ => ([], [])
  end.

(** One iteration of [for body_part, severity in injuries.items()]. *)
Definition impact_step (ia : ImpactAssessment) (entry : BodyPart * InjurySeverity)
  : result ImpactAssessment :=
  let '(body_part, severity) := entry in
  m <- AIAgent.injury_modifications body_part ;;
  ret {| restrictions := restrictions ia ++ map (annotate severity) (AIAgent.avoid m);
         modifications := modifications ia ++ AIAgent.modify m;
         focus_areas := focus_areas ia ++ fst (body_part_focus body_part);
         compensatory_strategies :=
           compensatory_strategies ia ++ AIAgent.compensatory m;
         risk_factors := risk_factors ia;
         rehabilitation_focus :=
           rehabilitation_focus ia ++ snd (body_part_focus body_part) |}.

Definition analyze_injury_impact (injuries : InjuryProfile) : result ImpactAssessment :=
  for_each impact_step injuries empty_impact.

(** The dict [base_durations], evaluated at [week]. *)
Definition base_durations (week : Z) (p : WorkoutPhase) : Z :=
  match p with
  | FOUNDATION => 10 + week * 2
  | BUILDING => 20 + Z.max 0 (week - 12) * 3
  | INTEGRATION => 25 + Z.max 0 (week - 24) * 2
  | MASTERY => 30 + Z.max 0 (week - 36) * 1
  end.

(** [any(word in restriction for restriction in injury_impact["restrictions"])]. *)
Definition mentions (word : string) (injury_impact : ImpactAssessment) : bool :=
  Py.any (Py.contains word) (restrictions injury_impact).

Definition _calculate_optimal_duration
  (phase : PhaseArg) (week : Z) (injury_impact : ImpactAssessment) : Z :=
  let duration :=
    match phase with
    | Some p => base_durations week p
    | None => 15
    end in
  let duration :=
    if mentions "standing" injury_impact then Z.max 10 (duration - 5) else duration in
  Z.min duration 60.

Definition _calculate_frequency (phase : PhaseArg) (week : Z) : Z :=
  match phase with
  | Some FOUNDATION => 3
  | Some BUILDING => 4
  | Some INTEGRATION => 5
  | Some MASTERY => 6
  | None => 3
  end.

Definition _get_energy_focus (phase : PhaseArg) (week : Z) : string :=
  match phase with
  | Some FOUNDATION => "grounding and centering"
  | Some BUILDING => "flow and coordination"
  | Some INTEGRATION => "internal energy circulation"
  | Some MASTERY => "effortless power and mindfulness"
  | None => "mind-body connection"
  end.

Definition ex (c n : string) (d : Z) : Exercise :=
  {| category := c; name := n; duration := d; ex_modifications := None |}.

Definition foundation_exercises : list Exercise :=
  [ex "breathing" "abdominal_breathing" 5;
   ex "warmup" "joint_rotations" 5;
   ex "qigong" "standing_meditation" 8;
   ex "qigong" "cloud_hands" 7].

Definition building_exercises : list Exercise :=
  [ex "breathing" "reverse_breathing" 5;
   ex "warmup" "gentle_stretching" 7;
   ex "qigong" "cloud_hands" 10;
   ex "forms" "commencement" 8;
   ex "forms" "ward_off" 10].

Definition advanced_exercises : list Exercise :=
  [ex "breathing" "reverse_breathing" 5;
   ex "warmup" "gentle_stretching" 7;
   ex "qigong" "cloud_hands" 8;
   ex "forms" "commencement" 5;
   ex "forms" "ward_off" 8;
   ex "forms" "roll_back" 8;
   ex "forms" "press" 8].

(** [if FOUNDATION ... elif BUILDING ... else ...]: every other phase value
    takes the last branch. *)
Definition _select_phase_exercises
  (phase : PhaseArg) (injury_impact : ImpactAssessment) (week : Z) : list Exercise :=
  match phase with
  | Some FOUNDATION => foundation_exercises
  | Some BUILDING => building_exercises
  | _ => advanced_exercises
  end.

Definition set_duration (e : Exercise) (d : Z) : Exercise :=
  {| category := category e; name := name e; duration := d;
     ex_modifications := ex_modifications e |}.

Definition set_modifications (e : Exercise) (ms : list string) : Exercise :=
  {| category := category e; name := name e; duration := duration e;
     ex_modifications := Some ms |}.

(** The three guards of the loop body. *)
Definition shoulder_rule (injury_impact : ImpactAssessment) (exercise : Exercise) : bool :=
  mentions "shoulder" injury_impact && Py.mem (name exercise) ["cloud_hands"; "ward_off"].

Definition standing_rule (injury_impact : ImpactAssessment) (exercise : Exercise) : bool :=
  mentions "standing" injury_impact && Py.mem (category exercise) ["qigong"; "forms"].

Definition back_rule (injury_impact : ImpactAssessment) (exercise : Exercise) : bool :=
  Py.any (fun restriction => Py.contains "back" (Py.lower restriction))
         (restrictions injury_impact)
  && Py.mem (name exercise) ["ward_off"; "press"].

Definition shoulder_strings : list string :=
  ["keep arms below shoulder height"; "reduce arm movement range by 50%"].
Definition standing_strings : list string :=
  ["use chair for support if needed"; "shorter stance width"].
Definition back_strings : list string :=
  ["maintain neutral spine"; "engage core throughout movement"].

(** The body of the loop of [_apply_injury_modifications]: the pair is
    [(modified_exercise, modifications)]; each branch assigns the duration from
    [exercise["duration"]], the dict being read, not from [modified_exercise]. *)
Definition modify_exercise (injury_impact : ImpactAssessment) (exercise : Exercise)
  : Exercise :=
  let st0 := (exercise, @nil string) in
  let st1 :=
    if shoulder_rule injury_impact exercise
    then (set_duration (fst st0) (Z.max 3 (duration exercise - 2)),
          snd st0 ++ shoulder_strings)
    else st0 in
  let st2 :=
    if standing_rule injury_impact exercise
    then (set_duration (fst st1) (Z.max 3 (duration exercise - 3)),
          snd st1 ++ standing_strings)
    else st1 in
  let st3 :=
    if back_rule injury_impact exercise
    then (set_duration (fst st2) (Z.max 3 (duration exercise - 2)),
          snd st2 ++ back_strings)
    else st2 in
  match snd st3 with
  | [] => fst st3
  | ms => set_modifications (fst st3) ms
  end.

(** The duration as the specification words it: the reductions of all the
    matched groups (2, 3 and 2 minutes) are summed before the floor of 3 is
    applied. Kept apart from [modify_exercise], for comparison only. *)
Definition spec_total_reduction (injury_impact : ImpactAssessment) (exercise : Exercise)
  : Z :=
  (if shoulder_rule injury_impact exercise then 2 else 0)
  + (if standing_rule injury_impact exercise then 3 else 0)
  + (if back_rule injury_impact exercise then 2 else 0).

Definition spec_cumulative_duration
  (injury_impact : ImpactAssessment) (exercise : Exercise) : Z :=
  Z.max 3 (duration exercise - spec_total_reduction injury_impact exercise).

Definition _apply_injury_modifications
  (exercises : list Exercise) (injury_impact : ImpactAssessment) : list Exercise :=
  map (modify_exercise injury_impact) exercises.

Record WorkoutPlan : Type := mkWorkoutPlan {
  wp_phase : PhaseArg;
  wp_week : Z;
  wp_duration_minutes : Z;
  wp_frequency_per_week : Z;
  wp_exercises : list Exercise;
  wp_precautions : list string;
  wp_modifications : list string;
  wp_focus_points : list string;
  wp_energy_focus : string
}.

Definition generate_workout_plan
  (phase : PhaseArg) (injury_impact : ImpactAssessment) (week : Z) : WorkoutPlan :=
  let exercises := _select_phase_exercises phase injury_impact week in
  {| wp_phase := phase;
     wp_week := week;
     wp_duration_minutes := _calculate_optimal_duration phase week injury_impact;
     wp_frequency_per_week := _calculate_frequency phase week;
     wp_exercises := _apply_injury_modifications exercises injury_impact;
     wp_precautions := firstn 3 (restrictions injury_impact);
     wp_modifications := firstn 3 (modifications injury_impact);
     wp_focus_points := firstn 2 (focus_areas injury_impact);
     wp_energy_focus := _get_energy_focus phase week |}.

(** The plan for an injury profile: [analyze_injury_impact] feeding
    [generate_workout_plan], as the tests and the program do. *)
Definition plan_for_profile (phase : PhaseArg) (injuries : InjuryProfile) (week : Z)
  : result WorkoutPlan :=
  injury_impact <- analyze_injury_impact injuries ;;
  ret (generate_workout_plan phase injury_impact week).

End Coach.

(** ** ProgressTrackerAgent *)

Module Tracker.

(** A row of the [progress_data] frame. *)
Record Row : Type := mkRow {
  timestamp : Z;
  phase : WorkoutPhase;
  week : Z;
  duration_minutes : Z;
  pain_level : Z;
  fatigue_level : Z;
  mood_level : Z;
  exercises_completed : Z;
  modifications_used : Z;
  completion_percentage : Z;
  notes : string
}.

(** [record_session]: the four subscripted keys raise when absent, in the
    order of the dict display; [now] is [datetime.now()]. The result is the
    frame after [pd.concat]. *)
Definition record_session (now : Z) (progress_data : list Row) (session_data : SessionData)
  : result (list Row) :=
  ph <- item "phase" (sd_phase session_data) ;;
  wk <- item "week" (sd_week session_data) ;;
  dur <- item "duration_minutes" (sd_duration_minutes session_data) ;;
  exs <- item "exercises" (sd_exercises session_data) ;;
  ret (progress_data ++
       [{| timestamp := now;
           phase := ph;
           week := wk;
           duration_minutes := dur;
           pain_level := get (sd_pain_level session_data) 0;
           fatigue_level := get (sd_fatigue_level session_data) 0;
           mood_level := get (sd_mood_level session_data) 0;
           exercises_completed := Py.len exs;
           modifications_used := Py.len (get (sd_modifications session_data) []);
           completion_percentage := get (sd_completion_percentage session_data) 100;
           notes := get (sd_notes session_data) "" |}]).

(** [DataFrame.tail(n)]: the last [n] rows, none for [n = 0], and all but the
    first [-n] rows for a negative [n]. *)
Definition tail {A : Type} (n : Z) (rows : list A) : list A :=
  if n =? 0 then []
  else if 0 <? n then Py.last_n (Z.to_nat n) rows
  else skipn (Z.to_nat (- n)) rows.

Definition sum (xs : list Z) : Z := fold_right Z.add 0 xs.

(** [Series.mean()]: NaN ([None]) on an empty column, the exact quotient
    otherwise. pandas sums and divides in float64: the quotient here is the
    real-number mean, which float64 orders against the integer thresholds in
    the same way as long as the sum of the column is below 2^53 in absolute
    value and the column has fewer than 2^46 rows; the statements that depend
    on the value of a mean carry such a range as a hypothesis. *)
Definition mean (xs : list Z) : option Q :=
  match xs with
  | [] => None
  | _ => Some (sum xs # Pos.of_nat (List.length xs))
  end.

(** [m > c] and [m < c] for a mean [m]; every comparison with NaN is false. *)
Definition gt (m : option Q) (c : Q) : bool :=
  match m with
  | Some q => negb (Qle_bool q c)
  | None => false
  end.

Definition lt (m : option Q) (c : Q) : bool :=
  match m with
  | Some q => negb (Qle_bool c q)
  | None => false
  end.

Definition pain_recommendations (avg_pain : option Q) : list string :=
  if gt avg_pain 6 then
    ["reduce_intensity_50_percent"; "focus_on_breathing_exercises";
     "consult_healthcare_provider_if_persistent"]
  else if gt avg_pain 4 then ["maintain_current_intensity"]
  else [].

Definition fatigue_recommendations (avg_fatigue : option Q) : list string :=
  if gt avg_fatigue 6 then
    ["ensure_adequate_rest"; "reduce_frequency_by_one_session";
     "focus_on_recovery_nutrition"]
  else [].

Definition completion_recommendations (completion_rate : option Q) : list string :=
  if gt completion_rate 90 then ["consider_moderate_progression"]
  else if lt completion_rate 70 then ["simplify_exercises_temporarily"]
  else [].

Definition _generate_recommendations (data : list Row) : list string :=
  let avg_pain := mean (map pain_level data) in
  let avg_fatigue := mean (map fatigue_level data) in
  let completion_rate := mean (map completion_percentage data) in
  let recommendations :=
    pain_recommendations avg_pain ++ fatigue_recommendations avg_fatigue
    ++ completion_recommendations completion_rate in
  match recommendations with
  | [] => ["continue_current_program"]
  | _ => recommendations
  end.

(** [values[0]] and [values[-1]] of a column with at least one value. In
    [_calculate_trend] the sums with 0.5 are exact rationals; float64 gives
    the same comparisons for values below 2^52 in absolute value, where
    adding 0.5 is exact. *)
Definition first_value (xs : list Z) : Z := hd 0 xs.
Definition last_value (xs : list Z) : Z := last xs 0.

Definition _calculate_trend (column : Row -> Z) (data : list Row) : string :=
  if Py.len data <? 2 then "stable"
  else
    let values := map column data in
    let v0 := inject_Z (first_value values) in
    let vn := inject_Z (last_value values) in
    if negb (Qle_bool vn (v0 + (1 # 2))) then "increasing"
    else if negb (Qle_bool (v0 - (1 # 2)) vn) then "decreasing"
    else "stable".

Definition _identify_risk_factors (data : list Row) : list string :=
  if 3 <=? Py.len data then
    (if Py.all (fun pain => 5 <=? pain) (Py.last_n 3 (map pain_level data))
     then ["persistent_moderate_pain"] else [])
    ++
    (if Py.all (fun completion => completion <? 60)
               (Py.last_n 3 (map completion_percentage data))
     then ["consistent_low_completion"] else [])
  else [].

Record Metrics : Type := mkMetrics {
  avg_duration : option Q;
  avg_pain : option Q;
  avg_fatigue : option Q;
  completion_rate : option Q
}.

Record Trends : Type := mkTrends {
  pain_trend : string;
  duration_trend : string;
  completion_trend : string
}.

(** The two shapes of dict that [analyze_trends] returns. The
    ["consistency_score"] entry, a floating-point standard deviation, is left
    out of [Metrics]. *)
Inductive TrendReport : Type :=
| NoData (status : string) (recommendations : list string)
| Analysis (performance_metrics : Metrics) (trends : Trends)
           (recommendations : list string) (risk_factors : list string).

Definition analyze_trends (window_size : Z) (progress_data : list Row) : TrendReport :=
  match progress_data with
  | [] => NoData "no_data" ["continue_baseline"]
  | _ =>
      let recent_data := tail window_size progress_data in
      Analysis
        {| avg_duration := mean (map duration_minutes recent_data);
           avg_pain := mean (map pain_level recent_data);
           avg_fatigue := mean (map fatigue_level recent_data);
           completion_rate := mean (map completion_percentage recent_data) |}
        {| pain_trend := _calculate_trend pain_level recent_data;
           duration_trend := _calculate_trend duration_minutes recent_data;
           completion_trend := _calculate_trend completion_percentage recent_data |}
        (_generate_recommendations recent_data)
        (_identify_risk_factors recent_data)
  end.

(** The default [window_size]. *)
Definition default_window : Z := 4.

Definition report_recommendations (r : TrendReport) : list string :=
  match r with
  | NoData _ recs => recs
  | Analysis _ _ recs _ => recs
  end.

End Tracker.

(** ** SafetyMonitorAgent *)

Module Safety.

(** [self.safety_thresholds]. *)
Definition pain_level_red : Z := 7.
Definition pain_level_yellow : Z := 4.
Definition fatigue_level_red : Z := 8.
Definition completion_minimum : Z := 50.

Record SafetyReport : Type := mkSafetyReport {
  safety_level : string;
  immediate_actions : list string;
  long_term_recommendations : list string;
  risk_factors : list string;
  clearance_for_next_session : bool
}.

(** The monitor's mutable state: [self.session_history]. *)
Definition History : Type := list SessionData.

Definition initial_history : History := [].

Definition pain_of (s : SessionData) : Z := get (sd_pain_level s) 0.
Definition fatigue_of (s : SessionData) : Z := get (sd_fatigue_level s) 0.
Definition completion_of (s : SessionData) : Z := get (sd_completion_percentage s) 100.

(** [all(xs[i] < xs[i+1] for i in range(len(xs)-1))]. *)
Fixpoint strictly_increasing (xs : list Z) : bool :=
  match xs with
  | x :: ((y :: _) as rest) => (x <? y) && strictly_increasing rest
  | _ => true
  end.

Definition _analyze_safety_trends (session_history : History) : list string :=
  if Py.len session_history <? 3 then []
  else
    let recent_sessions := Py.last_n 3 session_history in
    let pain_levels := map pain_of recent_sessions in
    let fatigue_levels := map fatigue_of recent_sessions in
    (if strictly_increasing pain_levels then ["INCREASING_PAIN_TREND"] else [])
    ++ (if Py.all (fun fatigue => 6 <=? fatigue) fatigue_levels
        then ["PERSISTENT_HIGH_FATIGUE"] else []).

(** The pain assessment: [if pain >= red ... elif pain >= yellow ...]. *)
Definition assess_pain (pain_level : Z) (r : SafetyReport) : SafetyReport :=
  if pain_level_red <=? pain_level then
    {| safety_level := "red";
       immediate_actions :=
         immediate_actions r ++
         ["STOP_ALL_ACTIVITY_IMMEDIATELY"; "REST_UNTIL_PAIN_SUBSIDES";
          "CONSULT_HEALTHCARE_PROVIDER"];
       long_term_recommendations := long_term_recommendations r;
       risk_factors := risk_factors r;
       clearance_for_next_session := false |}
  else if pain_level_yellow <=? pain_level then
    {| safety_level := "yellow";
       immediate_actions :=
         immediate_actions r ++
         ["REDUCE_INTENSITY_BY_50_PERCENT"; "FOCUS_ON_BREATHING_EXERCISES";
          "MONITOR_PAIN_CLOSELY"];
       long_term_recommendations := long_term_recommendations r;
       risk_factors := risk_factors r;
       clearance_for_next_session := clearance_for_next_session r |}
  else r.

(** The fatigue assessment; the level is assigned
    ["red" if level != "red" else "red"]. *)
Definition assess_fatigue (fatigue_level : Z) (r : SafetyReport) : SafetyReport :=
  if fatigue_level_red <=? fatigue_level then
    {| safety_level := if negb (String.eqb (safety_level r) "red") then "red" else "red";
       immediate_actions := immediate_actions r ++ ["REQUIRE_COMPLETE_REST_DAY"];
       long_term_recommendations :=
         long_term_recommendations r ++ ["REVIEW_SLEEP_AND_RECOVERY"];
       risk_factors := risk_factors r;
       clearance_for_next_session := clearance_for_next_session r |}
  else r.

(** The completion assessment. *)
Definition assess_completion (completion : Z) (r : SafetyReport) : SafetyReport :=
  if completion <? completion_minimum then
    {| safety_level := safety_level r;
       immediate_actions := immediate_actions r;
       long_term_recommendations :=
         long_term_recommendations r ++ ["SIMPLIFY_WORKOUT_COMPLEXITY"];
       risk_factors := risk_factors r ++ ["LOW_COMPLETION_RATE"];
       clearance_for_next_session := clearance_for_next_session r |}
  else r.

(** [session_history.append(session_data)], then [pop(0)] when more than
    five entries are held. *)
Definition push_history (session_history : History) (session_data : SessionData)
  : History :=
  let h := session_history ++ [session_data] in
  if 5 <? Py.len h then List.tl h else h.

Definition green_report : SafetyReport :=
  {| safety_level := "green";
     immediate_actions := [];
     long_term_recommendations := [];
     risk_factors := [];
     clearance_for_next_session := true |}.

(** [assess_session_safety]: the report and the monitor's history after the
    call. *)
Definition assess_session_safety (session_history : History) (session_data : SessionData)
  : SafetyReport * History :=
  let r := assess_pain (pain_of session_data) green_report in
  let r := assess_fatigue (fatigue_of session_data) r in
  let r := assess_completion (completion_of session_data) r in
  let session_history' := push_history session_history session_data in
  let trend_risks := _analyze_safety_trends session_history' in
  ({| safety_level := safety_level r;
      immediate_actions := immediate_actions r;
      long_term_recommendations := long_term_recommendations r;
      risk_factors := risk_factors r ++ trend_risks;
      clearance_for_next_session := clearance_for_next_session r |},
   session_history').

(** A feedback dict with the three keys the monitor reads. *)
Definition feedback (pain fatigue completion : Z) : SessionData :=
  {| sd_phase := None; sd_week := None; sd_duration_minutes := None;
     sd_pain_level := Some pain; sd_fatigue_level := Some fatigue;
     sd_mood_level := None; sd_exercises := None; sd_modifications := None;
     sd_completion_percentage := Some completion; sd_notes := None |}.

(** The closed ranges of the three feedback values. *)
Definition in_range (s : SessionData) : Prop :=
  0 <= pain_of s <= 10 /\ 0 <= fatigue_of s <= 10 /\ 0 <= completion_of s <= 100.

Record Guidelines : Type := mkGuidelines {
  daily_precautions : list string;
  warning_signs : list string;
  emergency_procedures : list string
}.

(** One iteration of the loop of [generate_safety_guidelines]: the
    [if/elif/elif] chain has no [else]. *)
Definition guideline_step (g : Guidelines) (entry : BodyPart * InjurySeverity)
  : Guidelines :=
  match fst entry with
  | LEFT_SHOULDER | RIGHT_SHOULDER =>
      {| daily_precautions :=
           daily_precautions g ++
           ["Avoid raising arms above shoulder level";
            "Use mirror to monitor posture alignment";
            "Stop immediately if sharp shoulder pain occurs"];
         warning_signs := warning_signs g ++ ["Radiating pain down the arm"];
         emergency_procedures := emergency_procedures g |}
  | LEFT_CALF =>
      {| daily_precautions :=
           daily_precautions g ++
           ["Have chair available for support";
            "Monitor for swelling after exercise";
            "Ice calf if any discomfort occurs"];
         warning_signs := warning_signs g ++ ["Sharp pain during weight bearing"];
         emergency_procedures := emergency_procedures g |}
  | LOWER_BACK =>
      {| daily_precautions :=
           daily_precautions g ++
           ["Maintain neutral spine during all movements";
            "Engage core muscles before moving";
            "Avoid sudden twisting motions"];
         warning_signs := warning_signs g ++ ["Numbness or tingling in legs"];
         emergency_procedures := emergency_procedures g |}
  | _ => g
  end.

Definition fixed_emergency_procedures : list string :=
  ["Stop immediately if severe pain occurs";
   "Apply ice to injured area";
   "Contact healthcare provider if symptoms persist";
   "Rest completely until professional assessment"].

Definition generate_safety_guidelines (injuries : InjuryProfile) : Guidelines :=
  let g :=
    fold_left guideline_step injuries
      {| daily_precautions := []; warning_signs := []; emergency_procedures := [] |} in
  {| daily_precautions := daily_precautions g;
     warning_signs := warning_signs g;
     emergency_procedures := fixed_emergency_procedures |}.

End Safety.

(** ** The tracker and the monitor side by side *)

Module Agents.

(** A call on one of the two agents a program owns. *)
Inductive Call : Type :=
| RecordSession (now : Z) (session_data : SessionData)
| AssessSafety (session_data : SessionData).

(** The tracker's frame and the monitor's history. *)
Definition State : Type := (list Tracker.Row * Safety.History)%type.

Definition initial : State := ([], Safety.initial_history).

(** A [record_session] that raises leaves the frame as it was. *)
Definition step (st : State) (c : Call) : State :=
  match c with
  | RecordSession now session_data =>
      match Tracker.record_session now (fst st) session_data with
      | inr frame => (frame, snd st)
      | inl _ => st
      end
  | AssessSafety session_data =>
      (fst st, snd (Safety.assess_session_safety (snd st) session_data))
  end.

Definition run (calls : list Call) : State := fold_left step calls initial.

(** The sessions passed to [assess_session_safety], in call order. *)
Fixpoint assessed (calls : list Call) : list SessionData :=
  match calls with
  | [] => []
  | AssessSafety s :: rest => s :: assessed rest
  | RecordSession _ _ :: rest => assessed rest
  end.

(** The calls on the tracker alone. *)
Fixpoint recorded (calls : list Call) : list Call :=
  match calls with
  | [] => []
  | RecordSession now s :: rest => RecordSession now s :: recorded rest
  | AssessSafety _ :: rest => recorded rest
  end.

End Agents.

(** ** The program coordinator *)

Module Program.

(** Modelled from the spec: the coordinator's state. [core/program_manager.py]
    (class [TaiChiProgram]) is not among the sources; the state is the
    specification's ProgramState: current week, current phase, the injury
    profile, and the state owned by the tracker and the monitor. *)
Record ProgramState : Type := mkProgramState {
  current_week : Z;
  current_phase : WorkoutPhase;
  injuries : InjuryProfile;
  progress_data : list Tracker.Row;
  session_history : Safety.History
}.

(** Modelled from the spec: the phase of a week, absent with
    [core/program_manager.py]: Foundation 1-12, Building 13-24,
    Integration 25-36, Mastery 37-52. *)
Definition phase_of_week (week : Z) : WorkoutPhase :=
  if week <=? 12 then FOUNDATION
  else if week <=? 24 then BUILDING
  else if week <=? 36 then INTEGRATION
  else MASTERY.

(** Modelled from the spec: the last week of the program, absent with
    [core/program_manager.py]. *)
Definition last_week : Z := 52.


(** Modelled from the spec: the range check of [completeSession], absent with
    [core/program_manager.py]: a value outside its closed range is a
    [ValidationError]. *)
Definition validate (field : string) (lo hi v : Z) : result unit :=
  if (lo <=? v) && (v <=? hi) then ret tt else raise (ValidationError field).

(** Modelled from the spec: [getCurrentWorkout], absent with
    [core/program_manager.py]: the plan generator's output for the current
    phase, the current week and the injury profile. *)
Definition getCurrentWorkout (st : ProgramState) : result Coach.WorkoutPlan :=
  Coach.plan_for_profile (Some (current_phase st)) (injuries st) (current_week st).

(** Modelled from the spec: the session dict that [completeSession] forwards to
    the tracker and to the monitor, absent with [core/program_manager.py]. *)
Definition session_record
  (st : ProgramState) (plan : Coach.WorkoutPlan)
  (pain fatigue completionPct : Z) (notes : option string) : SessionData :=
  {| sd_phase := Some (current_phase st);
     sd_week := Some (current_week st);
     sd_duration_minutes := Some (Coach.wp_duration_minutes plan);
     sd_pain_level := Some pain;
     sd_fatigue_level := Some fatigue;
     sd_mood_level := None;
     sd_exercises := Some (Coach.wp_exercises plan);
     sd_modifications := Some (Coach.wp_modifications plan);
     sd_completion_percentage := Some completionPct;
     sd_notes := notes |}.

(** Modelled from the spec: [completeSession], absent with
    [core/program_manager.py]: validate the three values before any change,
    build the current plan, forward the session to the tracker and to the
    monitor, advance the week by one up to week 52, and derive the phase from
    the new week. The plan cache of the specification is not kept: the plan is
    a function of the state. *)
Definition completeSession
  (now : Z) (st : ProgramState) (pain fatigue completionPct : Z) (notes : option string)
  : result ProgramState :=
  _ <- validate "pain_level" 0 10 pain ;;
  _ <- validate "fatigue_level" 0 10 fatigue ;;
  _ <- validate "completion_percentage" 0 100 completionPct ;;
  plan <- getCurrentWorkout st ;;
  let record := session_record st plan pain fatigue completionPct notes in
  frame <- Tracker.record_session now (progress_data st) record ;;
  let history := snd (Safety.assess_session_safety (session_history st) record) in
  let week' := Z.min (current_week st + 1) last_week in
  ret {| current_week := week';
         current_phase := phase_of_week week';
         injuries := injuries st;
         progress_data := frame;
         session_history := history |}.

(** The feedback of one session: pain, fatigue, completion, notes. *)
Record Feedback : Type := mkFeedback {
  fb_pain : Z;
  fb_fatigue : Z;
  fb_completion : Z;
  fb_notes : option string
}.

Definition valid_feedback (f : Feedback) : Prop :=
  0 <= fb_pain f <= 10 /\ 0 <= fb_fatigue f <= 10 /\ 0 <= fb_completion f <= 100.


(** A profile all of whose body parts are keys of the knowledge base. *)
Definition supported_profile (profile : InjuryProfile) : Prop :=
  Forall (fun entry => AIAgent.supported (fst entry) = true) profile.

(** The profile of [run_demonstration] in [main.py]. *)
Definition demo_profile : InjuryProfile :=
  [(LEFT_SHOULDER, MODERATE); (RIGHT_SHOULDER, MILD); (LEFT_CALF, MODERATE);
   (LOWER_BACK, MILD)].

End Program.

(** ** The exercise catalogue *)

Module Library.

(** An entry of the dict built by [_load_exercise_library]. *)
Record Entry : Type := mkEntry {
  difficulty : Z;
  impact : string;
  description : string;
  benefits : list string
}.

(** [_load_exercise_library]: a dict of dicts, category first, then name. *)
Definition _load_exercise_library : list (string * list (string * Entry)) :=
  [("breathing",
    [("abdominal_breathing",
      mkEntry 1 "low" "Focus on diaphragmatic breathing"
        ["relaxation"; "oxygenation"; "stress reduction"]);
     ("reverse_breathing",
      mkEntry 2 "low" "Advanced breathing technique with abdominal control"
        ["energy flow"; "core engagement"; "mental focus"])]);
   ("warmup",
    [("joint_rotations",
      mkEntry 1 "low" "Gentle rotation of all major joints"
        ["mobility"; "circulation"; "preparation"]);
     ("gentle_stretching",
      mkEntry 1 "low" "Light stretching for major muscle groups"
        ["flexibility"; "injury prevention"; "body awareness"])]);
   ("qigong",
    [("standing_meditation",
      mkEntry 1 "low" "Static standing practice with focus on alignment"
        ["rooting"; "posture"; "mental calm"]);
     ("cloud_hands",
      mkEntry 2 "medium" "Flowing arm movements with weight shifting"
        ["coordination"; "flow"; "balance"])]);
   ("forms",
    [("commencement",
      mkEntry 1 "low" "Opening movement of Tai Chi forms"
        ["centering"; "beginning awareness"; "energy gathering"]);
     ("ward_off",
      mkEntry 2 "medium" "Defensive posture with circular energy"
        ["structure"; "warding energy"; "upper-lower integration"])])].

(** [d[key]] on a dict with string keys. *)
Fixpoint subscript {A : Type} (d : list (string * A)) (key : string) : result A :=
  match d with
  | [] => raise (KeyError key)
  | (k, v) :: rest => if String.eqb k key then ret v else subscript rest key
  end.

(** [exercise_library[category][name]]. *)
Definition entry_of (category name : string) : result Entry :=
  names <- subscript _load_exercise_library category ;;
  subscript names name.

End Library.

(** ** Notions used to state the properties *)

Module Notions.

(** The body parts of the first branch of the [if/elif] chains. *)
Definition is_shoulder (b : BodyPart) : bool :=
  match b with
  | LEFT_SHOULDER | RIGHT_SHOULDER => true
  | _ => false
  end.

Definition is_left_calf (b : BodyPart) : bool :=
  match b with
  | LEFT_CALF => true
  | _ => false
  end.

(** The keys of a profile, in order. *)
Definition body_parts (profile : InjuryProfile) : list BodyPart := map fst profile.

(** Field by field concatenation of two summaries. *)
Definition impact_app (a b : Coach.ImpactAssessment) : Coach.ImpactAssessment :=
  {| Coach.restrictions := Coach.restrictions a ++ Coach.restrictions b;
     Coach.modifications := Coach.modifications a ++ Coach.modifications b;
     Coach.focus_areas := Coach.focus_areas a ++ Coach.focus_areas b;
     Coach.compensatory_strategies :=
       Coach.compensatory_strategies a ++ Coach.compensatory_strategies b;
     Coach.risk_factors := Coach.risk_factors a ++ Coach.risk_factors b;
     Coach.rehabilitation_focus :=
       Coach.rehabilitation_focus a ++ Coach.rehabilitation_focus b |}.

(** The minutes of a list of exercises. *)
Definition total_duration (exercises : list Exercise) : Z :=
  Tracker.sum (map duration exercises).

(** The ["risk_factors"] and ["trends"] entries of a report, when present. *)
Definition report_risk_factors (r : Tracker.TrendReport) : list string :=
  match r with
  | Tracker.NoData _ _ => []
  | Tracker.Analysis _ _ _ risks => risks
  end.

(** The ranges of the recorded feedback: pain and fatigue 0-10, completion
    0-100. *)
Definition row_in_range (r : Tracker.Row) : Prop :=
  0 <= Tracker.pain_level r <= 10
  /\ 0 <= Tracker.fatigue_level r <= 10
  /\ 0 <= Tracker.completion_percentage r <= 100.

(** A window on which float64 computes the means of the three feedback
    columns without crossing a threshold: values in range and fewer than 2^32
    rows. *)
Definition window_in_range (data : list Tracker.Row) : Prop :=
  Forall row_in_range data /\ Z.of_nat (List.length data) < 2 ^ 32.

(** Values that float64 holds exactly together with their sum with 0.5. *)
Definition half_exact (v : Z) : Prop := - 2 ^ 52 < v < 2 ^ 52.

(** The report on an empty window of a log that is not empty. *)
Definition empty_window_report : Tracker.TrendReport :=
  Tracker.Analysis
    {| Tracker.avg_duration := None; Tracker.avg_pain := None;
       Tracker.avg_fatigue := None; Tracker.completion_rate := None |}
    {| Tracker.pain_trend := "stable"; Tracker.duration_trend := "stable";
       Tracker.completion_trend := "stable" |}
    ["continue_current_program"] [].

(** The dict [guidelines] before the loop of [generate_safety_guidelines]. *)
Definition no_guidelines : Safety.Guidelines :=
  {| Safety.daily_precautions := []; Safety.warning_signs := [];
     Safety.emergency_procedures := [] |}.

(** The body parts that the [if/elif] chain of [generate_safety_guidelines]
    names. *)
Definition has_guideline (b : BodyPart) : bool :=
  match b with
  | LEFT_SHOULDER | RIGHT_SHOULDER | LEFT_CALF | LOWER_BACK => true
  | _ => false
  end.

End Notions.

(** * Properties *)

(** ** The plan generator *)

Section CoachProperties.

Import Coach.

Ltac rules ia e :=
  destruct (shoulder_rule ia e), (standing_rule ia e), (back_rule ia e); cbn.

(** The duration that [modify_exercise] leaves is that of the last group that
    matched, in the order shoulder, standing, back. *)
Lemma modify_exercise_duration (ia : ImpactAssessment) (e : Exercise) :
  duration (modify_exercise ia e) =
  if back_rule ia e then Z.max 3 (duration e - 2)
  else if standing_rule ia e then Z.max 3 (duration e - 3)
  else if shoulder_rule ia e then Z.max 3 (duration e - 2)
  else duration e.
Proof.
  unfold modify_exercise. rules ia e; reflexivity.
Qed.

(** The strings of every matched group are appended, in the order shoulder,
    standing, back; with no match the exercise keeps what it had. *)
Lemma modify_exercise_strings (ia : ImpactAssessment) (e : Exercise) :
  ex_modifications (modify_exercise ia e) =
  match (if shoulder_rule ia e then shoulder_strings else [])
        ++ (if standing_rule ia e then standing_strings else [])
        ++ (if back_rule ia e then back_strings else []) with
  | [] => ex_modifications e
  | ms => Some ms
  end.
Proof.
  unfold modify_exercise. rules ia e; reflexivity.
Qed.

(** With at most one matching group the code and the summed reduction
    agree. *)
Lemma modify_exercise_single_group (ia : ImpactAssessment) (e : Exercise) :
  spec_total_reduction ia e = 2 \/ spec_total_reduction ia e = 3 ->
  duration (modify_exercise ia e) = spec_cumulative_duration ia e.
Proof.
  rewrite modify_exercise_duration.
  unfold spec_cumulative_duration, spec_total_reduction.
  rules ia e; intros [H | H]; try discriminate H; reflexivity.
Qed.

(** A matched exercise never drops below three minutes, and no exercise gets
    longer. *)
Lemma modify_exercise_floor (ia : ImpactAssessment) (e : Exercise) :
  3 <= duration e ->
  3 <= duration (modify_exercise ia e) <= duration e.
Proof.
  intros H. rewrite modify_exercise_duration.
  rules ia e; lia.
Qed.

(** C1. On the profile left shoulder and left calf, the Foundation exercise
    cloud_hands (7 minutes) matches the shoulder group and the standing group.
    All four strings are appended, but the duration returned is 4, the
    standing reduction alone applied to the base duration, where the sum of
    the two reductions floored at 3 gives 3. *)
Theorem apply_modifications_cloud_hands_not_cumulative :
  exists ia,
    analyze_injury_impact [(LEFT_SHOULDER, MODERATE); (LEFT_CALF, MODERATE)] = inr ia
    /\ nth_error (_select_phase_exercises (Some FOUNDATION) ia 1) 3
       = Some (ex "qigong" "cloud_hands" 7)
    /\ shoulder_rule ia (ex "qigong" "cloud_hands" 7) = true
    /\ standing_rule ia (ex "qigong" "cloud_hands" 7) = true
    /\ back_rule ia (ex "qigong" "cloud_hands" 7) = false
    /\ nth_error (_apply_injury_modifications
                    (_select_phase_exercises (Some FOUNDATION) ia 1) ia) 3
       = Some {| category := "qigong"; name := "cloud_hands"; duration := 4;
                 ex_modifications := Some (shoulder_strings ++ standing_strings) |}
    /\ spec_cumulative_duration ia (ex "qigong" "cloud_hands" 7) = 3.
Proof.
  eexists. split; [vm_compute; reflexivity |].
  repeat split; vm_compute; reflexivity.
Qed.

(** More restrictions can lengthen an exercise: ward_off (10 minutes, Building)
    lasts 7 minutes under a standing restriction and 8 once a back restriction
    is added. *)
Lemma modify_exercise_not_monotone :
  let standing := {| restrictions := ["prolonged standing (mild)"];
                     modifications := []; focus_areas := [];
                     compensatory_strategies := []; risk_factors := [];
                     rehabilitation_focus := [] |} in
  let both := {| restrictions := ["prolonged standing (mild)"; "lower back strain"];
                 modifications := []; focus_areas := [];
                 compensatory_strategies := []; risk_factors := [];
                 rehabilitation_focus := [] |} in
  duration (modify_exercise standing (ex "forms" "ward_off" 10)) = 7
  /\ duration (modify_exercise both (ex "forms" "ward_off" 10)) = 8.
Proof.
  split; vm_compute; reflexivity.
Qed.

(** No restriction that [analyze_injury_impact] derives from the knowledge
    base mentions "back", so on its summaries the back group never matches. *)
Lemma for_each_impact_no_back (injuries : InjuryProfile) :
  forall acc ia,
    for_each impact_step injuries acc = inr ia ->
    Forall (fun r => Py.contains "back" (Py.lower r) = false) (restrictions acc) ->
    Forall (fun r => Py.contains "back" (Py.lower r) = false) (restrictions ia).
Proof.
  induction injuries as [| [b sev] rest IH]; intros acc ia Hrun Hacc.
  - cbn in Hrun. injection Hrun as <-. exact Hacc.
  - cbn [for_each] in Hrun. unfold impact_step at 1, AIAgent.injury_modifications in Hrun.
    destruct (AIAgent._load_injury_modifications b) as [m |] eqn:Hm;
      [| discriminate Hrun].
    cbn [item bind ret] in Hrun. apply IH in Hrun; [exact Hrun |].
    cbn [restrictions]. apply Forall_app. split; [exact Hacc |].
    destruct b; try discriminate Hm; injection Hm as <-;
      destruct sev; repeat constructor.
Qed.

Lemma back_rule_never_fires (injuries : InjuryProfile) (ia : ImpactAssessment)
  (e : Exercise) :
  analyze_injury_impact injuries = inr ia -> back_rule ia e = false.
Proof.
  intros Hrun. apply for_each_impact_no_back in Hrun; [| constructor].
  unfold back_rule, Py.any.
  replace (existsb (fun restriction => Py.contains "back" (Py.lower restriction))
                   (restrictions ia)) with false; [reflexivity |].
  symmetry. induction Hrun as [| r rs Hr _ IHrs]; [reflexivity |].
  cbn [existsb]. rewrite Hr, IHrs. reflexivity.
Qed.

(** [analyze_injury_impact] returns on every profile of supported body
    parts. *)
Lemma for_each_impact_supported (injuries : InjuryProfile) :
  Forall (fun entry => AIAgent.supported (fst entry) = true) injuries ->
  forall acc, exists ia, for_each impact_step injuries acc = inr ia.
Proof.
  induction 1 as [| [b sev] rest Hb _ IH]; intros acc.
  - exists acc. reflexivity.
  - cbn [for_each]. unfold impact_step at 1, AIAgent.injury_modifications.
    cbn [fst] in Hb. unfold AIAgent.supported in Hb.
    destruct (AIAgent._load_injury_modifications b) as [m |]; [| discriminate Hb].
    cbn [item bind ret]. apply IH.
Qed.

Lemma analyze_injury_impact_supported (injuries : InjuryProfile) :
  Forall (fun entry => AIAgent.supported (fst entry) = true) injuries ->
  exists ia, analyze_injury_impact injuries = inr ia.
Proof.
  intros H. apply for_each_impact_supported, H.
Qed.

(** [analyze_injury_impact] raises [KeyError] at the first body part that is
    not a key of the knowledge base. *)
Lemma for_each_impact_unsupported (injuries : InjuryProfile) :
  Exists (fun entry => AIAgent.supported (fst entry) = false) injuries ->
  forall acc, exists b,
    In b (map fst injuries) /\ AIAgent.supported b = false
    /\ for_each impact_step injuries acc = inl (KeyError (BodyPart_value b)).
Proof.
  induction injuries as [| [b sev] rest IH]; intros Hex acc.
  - inversion Hex.
  - cbn [for_each]. unfold impact_step at 1, AIAgent.injury_modifications.
    destruct (AIAgent._load_injury_modifications b) as [m |] eqn:Hb.
    + cbn [item bind ret].
      assert (Hrest : Exists (fun entry => AIAgent.supported (fst entry) = false) rest).
      { inversion Hex as [? ? Hhd | ? ? Htl]; subst; [| exact Htl].
        cbn [fst] in Hhd. unfold AIAgent.supported in Hhd. rewrite Hb in Hhd.
        discriminate Hhd. }
      destruct (IH Hrest
                  {| restrictions := restrictions acc ++ map (annotate sev) (AIAgent.avoid m);
                     modifications := modifications acc ++ AIAgent.modify m;
                     focus_areas := focus_areas acc ++ fst (body_part_focus b);
                     compensatory_strategies :=
                       compensatory_strategies acc ++ AIAgent.compensatory m;
                     risk_factors := risk_factors acc;
                     rehabilitation_focus :=
                       rehabilitation_focus acc ++ snd (body_part_focus b) |})
        as (b' & Hin & Hsup & Hrun).
      exists b'. split; [right; exact Hin | split; [exact Hsup | exact Hrun]].
    + exists b. split; [left; reflexivity |].
      split; [unfold AIAgent.supported; rewrite Hb; reflexivity | reflexivity].
Qed.

(** C2. Plan generation is not total on the closed enumeration of body parts:
    for the profile that maps neck to mild, the knowledge-base lookup of
    [analyze_injury_impact] raises [KeyError], whatever the phase and the
    week, and no plan is produced. *)
Theorem plan_for_profile_raises_on_neck (phase : PhaseArg) (week : Z) :
  analyze_injury_impact [(NECK, MILD)] = inl (KeyError "neck")
  /\ plan_for_profile phase [(NECK, MILD)] week = inl (KeyError "neck").
Proof.
  split; reflexivity.
Qed.

(** On a profile of supported body parts a plan is always produced, with the
    defaults of an unknown phase before the standing adjustment. *)
Lemma plan_for_profile_supported (phase : PhaseArg) (injuries : InjuryProfile) (week : Z) :
  Forall (fun entry => AIAgent.supported (fst entry) = true) injuries ->
  exists ia,
    analyze_injury_impact injuries = inr ia
    /\ plan_for_profile phase injuries week = inr (generate_workout_plan phase ia week).
Proof.
  intros H. destruct (analyze_injury_impact_supported injuries H) as [ia Hia].
  exists ia. split; [exact Hia |].
  unfold plan_for_profile. rewrite Hia. reflexivity.
Qed.

Lemma unknown_phase_defaults (ia : ImpactAssessment) (week : Z) :
  let plan := generate_workout_plan None ia week in
  wp_duration_minutes plan = (if mentions "standing" ia then 10 else 15)
  /\ wp_frequency_per_week plan = 3
  /\ wp_energy_focus plan = "mind-body connection".
Proof.
  cbn. unfold _calculate_optimal_duration.
  destruct (mentions "standing" ia); repeat split; reflexivity.
Qed.

(** C5. For every phase value and every week from 1 on, the duration lies in
    [10, 60]; and for a fixed phase and a summary none of whose restrictions
    contains "standing", the duration does not decrease as the week grows. *)
Theorem calculate_optimal_duration_bounds_monotone :
  (forall (phase : PhaseArg) (week : Z) (ia : ImpactAssessment),
      1 <= week ->
      10 <= _calculate_optimal_duration phase week ia <= 60)
  /\ (forall (phase : PhaseArg) (ia : ImpactAssessment) (w1 w2 : Z),
         mentions "standing" ia = false ->
         1 <= w1 -> w1 <= w2 ->
         _calculate_optimal_duration phase w1 ia
         <= _calculate_optimal_duration phase w2 ia).
Proof.
  split.
  - intros phase week ia Hw. unfold _calculate_optimal_duration, base_durations.
    destruct phase as [[] |], (mentions "standing" ia); lia.
  - intros phase ia w1 w2 Hs H1 H12.
    unfold _calculate_optimal_duration, base_durations. rewrite Hs.
    destruct phase as [[] |]; lia.
Qed.

Lemma calculate_optimal_duration_witness :
  10 <= _calculate_optimal_duration (Some BUILDING) 14 empty_impact <= 60
  /\ _calculate_optimal_duration (Some BUILDING) 14 empty_impact
     <= _calculate_optimal_duration (Some BUILDING) 20 empty_impact.
Proof.
  split.
  - apply (proj1 calculate_optimal_duration_bounds_monotone). lia.
  - apply (proj2 calculate_optimal_duration_bounds_monotone);
      [reflexivity | lia | lia].
Defined.

(** The standing adjustment keeps the duration monotone as well. *)
Lemma calculate_optimal_duration_monotone_any (phase : PhaseArg) (ia : ImpactAssessment)
  (w1 w2 : Z) :
  w1 <= w2 ->
  _calculate_optimal_duration phase w1 ia <= _calculate_optimal_duration phase w2 ia.
Proof.
  intros H. unfold _calculate_optimal_duration, base_durations.
  destruct phase as [[] |], (mentions "standing" ia); lia.
Qed.

End CoachProperties.

(** ** The safety monitor *)

Section SafetyProperties.

Import Safety.

Ltac thresholds :=
  unfold pain_level_red, pain_level_yellow, fatigue_level_red, completion_minimum in *.

(** The three assessments, case by case on the thresholds. *)
Ltac assess_cases sd :=
  unfold assess_session_safety, assess_pain, assess_fatigue, assess_completion;
  thresholds;
  destruct (7 <=? pain_of sd) eqn:Hred;
  [| destruct (4 <=? pain_of sd) eqn:Hyellow];
  destruct (8 <=? fatigue_of sd) eqn:Hfatigue;
  destruct (completion_of sd <? 50) eqn:Hcompletion;
  cbn [fst snd safety_level immediate_actions long_term_recommendations
       risk_factors clearance_for_next_session green_report app negb String.eqb].

Lemma trend_risks_tags (h : History) (t : string) :
  In t (_analyze_safety_trends h) ->
  t = "INCREASING_PAIN_TREND" \/ t = "PERSISTENT_HIGH_FATIGUE".
Proof.
  unfold _analyze_safety_trends.
  destruct (Py.len h <? 3); [intros [] |].
  destruct (strictly_increasing _), (Py.all _ _); cbn; intuition.
Qed.

(** The level of the report, in closed form. *)
Lemma safety_level_closed_form (h : History) (sd : SessionData) :
  safety_level (fst (assess_session_safety h sd)) =
  if (7 <=? pain_of sd) || (8 <=? fatigue_of sd) then "red"
  else if 4 <=? pain_of sd then "yellow"
  else "green".
Proof.
  assess_cases sd; reflexivity.
Qed.

(** Clearance is withdrawn by the pain assessment alone. *)
Lemma clearance_closed_form (h : History) (sd : SessionData) :
  clearance_for_next_session (fst (assess_session_safety h sd))
  = negb (7 <=? pain_of sd).
Proof.
  assess_cases sd; reflexivity.
Qed.

(** C3, as stated, fails: pain 3, fatigue 9, completion 95 is in range, the
    level is "red", and clearance for the next session is still given. *)
Lemma fatigue_red_keeps_clearance :
  in_range (feedback 3 9 95)
  /\ safety_level (fst (assess_session_safety initial_history (feedback 3 9 95))) = "red"
  /\ clearance_for_next_session
       (fst (assess_session_safety initial_history (feedback 3 9 95))) = true.
Proof.
  split; [unfold in_range; cbn; lia |].
  split; reflexivity.
Qed.

(** C3, amended. Clearance for the next session is false exactly when
    pain >= 7. So a "yellow" level always comes with clearance, a "red" level
    reached through pain >= 7 comes without it, and a "red" level with
    pain < 7 is one forced by fatigue >= 8 and keeps clearance. *)
Theorem clearance_follows_pain (h : History) (sd : SessionData) :
  let r := fst (assess_session_safety h sd) in
  (clearance_for_next_session r = false <-> 7 <= pain_of sd)
  /\ (safety_level r = "yellow" -> clearance_for_next_session r = true)
  /\ (safety_level r = "red" ->
      (7 <= pain_of sd /\ clearance_for_next_session r = false)
      \/ (pain_of sd < 7 /\ 8 <= fatigue_of sd /\ clearance_for_next_session r = true)).
Proof.
  cbv zeta.
  rewrite clearance_closed_form, safety_level_closed_form.
  destruct (7 <=? pain_of sd) eqn:Hred; cbn [negb orb].
  - apply Z.leb_le in Hred.
    split; [tauto |]. split; [discriminate |]. intros _. left. tauto.
  - apply Z.leb_gt in Hred.
    split; [split; [discriminate | lia] |].
    split; [reflexivity |].
    destruct (8 <=? fatigue_of sd) eqn:Hfatigue.
    + apply Z.leb_le in Hfatigue. intros _. right. tauto.
    + destruct (4 <=? pain_of sd); discriminate.
Qed.

Lemma clearance_follows_pain_witness :
  safety_level (fst (assess_session_safety initial_history (feedback 5 2 80))) = "yellow"
  /\ clearance_for_next_session
       (fst (assess_session_safety initial_history (feedback 5 2 80))) = true.
Proof.
  split; [reflexivity |].
  apply (proj1 (proj2 (clearance_follows_pain initial_history (feedback 5 2 80)))).
  reflexivity.
Defined.

(** C4, as stated, fails on "adds only a risk tag": with the same pain and
    fatigue, a completion of 40 also appends a long-term recommendation that a
    completion of 60 does not. *)
Lemma low_completion_adds_recommendation :
  long_term_recommendations
    (fst (assess_session_safety initial_history (feedback 0 0 40)))
  = ["SIMPLIFY_WORKOUT_COMPLEXITY"]
  /\ long_term_recommendations
       (fst (assess_session_safety initial_history (feedback 0 0 60)))
     = []
  /\ risk_factors (fst (assess_session_safety initial_history (feedback 0 0 40)))
     = ["LOW_COMPLETION_RATE"].
Proof.
  repeat split; reflexivity.
Qed.

(** C4, amended. Pain >= 7 gives "red" with the stop action; 4 <= pain < 7
    gives a pain-derived "yellow", which is the level of the report unless
    fatigue forces red; fatigue >= 8 gives "red" and the rest-day action
    whatever the pain; completion < 50 adds the risk tag and one long-term
    recommendation, and the level, the immediate actions and the clearance do
    not depend on completion. *)
Theorem safety_classification (h : History) (sd : SessionData) :
  let r := fst (assess_session_safety h sd) in
  (7 <= pain_of sd ->
   safety_level r = "red" /\ In "STOP_ALL_ACTIVITY_IMMEDIATELY" (immediate_actions r))
  /\ (4 <= pain_of sd < 7 ->
      safety_level (assess_pain (pain_of sd) green_report) = "yellow"
      /\ (fatigue_of sd < 8 -> safety_level r = "yellow"))
  /\ (8 <= fatigue_of sd ->
      safety_level r = "red" /\ In "REQUIRE_COMPLETE_REST_DAY" (immediate_actions r))
  /\ (completion_of sd < 50 ->
      In "LOW_COMPLETION_RATE" (risk_factors r)
      /\ In "SIMPLIFY_WORKOUT_COMPLEXITY" (long_term_recommendations r))
  /\ (50 <= completion_of sd ->
      ~ In "LOW_COMPLETION_RATE" (risk_factors r)
      /\ ~ In "SIMPLIFY_WORKOUT_COMPLEXITY" (long_term_recommendations r))
  /\ (forall sd' : SessionData,
         pain_of sd' = pain_of sd -> fatigue_of sd' = fatigue_of sd ->
         let r' := fst (assess_session_safety h sd') in
         safety_level r' = safety_level r
         /\ immediate_actions r' = immediate_actions r
         /\ clearance_for_next_session r' = clearance_for_next_session r).
Proof.
  cbv zeta. repeat apply conj.
  - intros Hp. apply Z.leb_le in Hp.
    assess_cases sd; try discriminate Hp; split; try reflexivity; cbn; tauto.
  - intros [Hlo Hhi]. apply Z.leb_le in Hlo. apply Z.leb_gt in Hhi.
    split.
    + unfold assess_pain. thresholds. rewrite Hhi, Hlo. reflexivity.
    + intros Hf. apply Z.leb_gt in Hf.
      rewrite safety_level_closed_form, Hhi, Hf, Hlo. reflexivity.
  - intros Hf. apply Z.leb_le in Hf.
    assess_cases sd; try discriminate Hf; split; try reflexivity; cbn; tauto.
  - intros Hc. apply Z.ltb_lt in Hc.
    assess_cases sd; try discriminate Hc; split; cbn; tauto.
  - intros Hc. apply Z.ltb_ge in Hc.
    assess_cases sd; try discriminate Hc;
      (split; [intros Hin; apply trend_risks_tags in Hin;
               destruct Hin as [Hin | Hin]; discriminate Hin
              | cbn; intros Hin; intuition discriminate]).
  - intros sd' Hp Hf.
    unfold assess_session_safety, assess_pain, assess_fatigue, assess_completion.
    rewrite Hp, Hf.
    destruct (pain_level_red <=? pain_of sd);
      [| destruct (pain_level_yellow <=? pain_of sd)];
      destruct (fatigue_level_red <=? fatigue_of sd);
      destruct (completion_of sd <? completion_minimum);
      destruct (completion_of sd' <? completion_minimum);
      repeat split; reflexivity.
Qed.

Lemma safety_classification_witness :
  (safety_level (fst (assess_session_safety initial_history (feedback 8 3 60))) = "red"
   /\ In "STOP_ALL_ACTIVITY_IMMEDIATELY"
         (immediate_actions (fst (assess_session_safety initial_history (feedback 8 3 60)))))
  /\ (safety_level (fst (assess_session_safety initial_history (feedback 3 9 95))) = "red"
      /\ In "REQUIRE_COMPLETE_REST_DAY"
            (immediate_actions
               (fst (assess_session_safety initial_history (feedback 3 9 95)))))
  /\ safety_level (fst (assess_session_safety initial_history (feedback 5 2 80))) = "yellow"
  /\ In "LOW_COMPLETION_RATE"
        (risk_factors (fst (assess_session_safety initial_history (feedback 5 2 40)))).
Proof.
  split; [| split; [| split]].
  - apply (proj1 (safety_classification initial_history (feedback 8 3 60))).
    cbn. lia.
  - apply (proj1 (proj2 (proj2 (safety_classification initial_history (feedback 3 9 95))))).
    cbn. lia.
  - apply (proj1 (proj2 (safety_classification initial_history (feedback 5 2 80))));
      cbn; lia.
  - apply (proj1 (proj2 (proj2 (proj2
             (safety_classification initial_history (feedback 5 2 40)))))).
    cbn. lia.
Defined.

End SafetyProperties.

(** ** The monitor's bounded history *)

Section HistoryProperties.

Import Safety.

Lemma last_n_short {A : Type} (n : nat) (xs : list A) :
  (List.length xs <= n)%nat -> Py.last_n n xs = xs.
Proof.
  intros H. unfold Py.last_n.
  replace (List.length xs - n)%nat with 0%nat by lia. reflexivity.
Qed.

Lemma last_n_length {A : Type} (n : nat) (xs : list A) :
  List.length (Py.last_n n xs) = Nat.min n (List.length xs).
Proof.
  unfold Py.last_n. rewrite length_skipn. lia.
Qed.

Lemma tl_skipn {A : Type} (k : nat) (xs : list A) :
  List.tl (skipn k xs) = skipn (S k) xs.
Proof.
  revert xs. induction k as [| k IH]; intros [| x xs]; try reflexivity.
  cbn [skipn]. rewrite IH. destruct xs; reflexivity.
Qed.

(** One [append] followed by the conditional [pop(0)] keeps the last five. *)
Lemma push_history_last_five (seen : list SessionData) (s : SessionData) :
  push_history (Py.last_n 5 seen) s = Py.last_n 5 (seen ++ [s]).
Proof.
  unfold push_history, Py.len.
  rewrite length_app, last_n_length. cbn [List.length].
  destruct (Nat.le_gt_cases (List.length seen) 4) as [Hshort | Hlong].
  - replace (5 <? Z.of_nat (Nat.min 5 (List.length seen) + 1)) with false
      by (symmetry; apply Z.ltb_ge; lia).
    rewrite (last_n_short 5 seen) by lia.
    rewrite last_n_short; [reflexivity | rewrite length_app; cbn; lia].
  - replace (5 <? Z.of_nat (Nat.min 5 (List.length seen) + 1)) with true
      by (symmetry; apply Z.ltb_lt; lia).
    unfold Py.last_n. rewrite length_app. cbn [List.length].
    rewrite skipn_app.
    replace (List.length seen + 1 - 5 - List.length seen)%nat with 0%nat by lia.
    cbn [skipn].
    replace (List.length seen + 1 - 5)%nat with (S (List.length seen - 5)) by lia.
    rewrite <- tl_skipn.
    destruct (skipn (List.length seen - 5) seen) as [| x rest] eqn:Hskip.
    + apply (f_equal (@List.length SessionData)) in Hskip.
      rewrite length_skipn in Hskip. cbn in Hskip. lia.
    + reflexivity.
Qed.

Lemma run_history_from (calls : list Agents.Call) :
  forall (st : Agents.State) (seen : list SessionData),
    snd st = Py.last_n 5 seen ->
    snd (fold_left Agents.step calls st) = Py.last_n 5 (seen ++ Agents.assessed calls).
Proof.
  induction calls as [| c calls IH]; intros st seen Hst.
  - cbn. rewrite app_nil_r. exact Hst.
  - cbn [fold_left]. destruct c as [now s | s].
    + cbn [Agents.assessed]. apply IH.
      cbn [Agents.step]. destruct (Tracker.record_session now (fst st) s); exact Hst.
    + cbn [Agents.assessed].
      replace (seen ++ s :: Agents.assessed calls)
        with ((seen ++ [s]) ++ Agents.assessed calls)
        by (rewrite <- app_assoc; reflexivity).
      apply IH. cbn [Agents.step snd assess_session_safety].
      rewrite Hst. apply push_history_last_five.
Qed.

Lemma run_frame_from (calls : list Agents.Call) :
  forall st st' : Agents.State,
    fst st = fst st' ->
    fst (fold_left Agents.step calls st)
    = fst (fold_left Agents.step (Agents.recorded calls) st').
Proof.
  induction calls as [| c calls IH]; intros st st' Hst.
  - exact Hst.
  - destruct c as [now s | s]; cbn [Agents.recorded fold_left].
    + apply IH. cbn [Agents.step]. rewrite Hst.
      destruct (Tracker.record_session now (fst st') s); [exact Hst | reflexivity].
    + apply IH. exact Hst.
Qed.

(** The frame grows by one row at every well-formed [record_session]. *)
Lemma record_session_grows (now : Z) (frame frame' : list Tracker.Row) (s : SessionData) :
  Tracker.record_session now frame s = inr frame' ->
  List.length frame' = S (List.length frame).
Proof.
  unfold Tracker.record_session, item.
  destruct (sd_phase s), (sd_week s), (sd_duration_minutes s), (sd_exercises s);
    cbn; try discriminate.
  intros H. injection H as <-. rewrite length_app. cbn. lia.
Qed.

(** C9. After any sequence of calls on the two agents, the monitor's history
    holds at most five entries, and they are the last sessions passed to
    [assess_session_safety], in arrival order; the history is the same as if
    the tracker had never been called, and the tracker's frame the same as if
    the monitor had never been called. *)
Theorem session_history_last_five (calls : list Agents.Call) :
  (List.length (snd (Agents.run calls)) <= 5)%nat
  /\ snd (Agents.run calls) = Py.last_n 5 (Agents.assessed calls)
  /\ snd (Agents.run calls)
     = snd (Agents.run (map Agents.AssessSafety (Agents.assessed calls)))
  /\ fst (Agents.run calls) = fst (Agents.run (Agents.recorded calls)).
Proof.
  assert (Hrun : forall cs, snd (Agents.run cs) = Py.last_n 5 (Agents.assessed cs)).
  { intros cs. unfold Agents.run.
    apply (run_history_from cs Agents.initial []). reflexivity. }
  assert (Hassessed : forall ss,
             Agents.assessed (map Agents.AssessSafety ss) = ss).
  { induction ss as [| s ss IH]; [reflexivity |]. cbn. rewrite IH. reflexivity. }
  split; [| split; [| split]].
  - rewrite Hrun, last_n_length. lia.
  - apply Hrun.
  - rewrite !Hrun, Hassessed. reflexivity.
  - unfold Agents.run. apply run_frame_from. reflexivity.
Qed.

(** The tracker's frame has no such bound: six recorded sessions give six
    rows. *)
Lemma progress_data_unbounded :
  let s := {| sd_phase := Some FOUNDATION; sd_week := Some 1;
              sd_duration_minutes := Some 15; sd_pain_level := Some 2;
              sd_fatigue_level := Some 3; sd_mood_level := None;
              sd_exercises := Some []; sd_modifications := None;
              sd_completion_percentage := Some 90; sd_notes := None |} in
  let calls := repeat (Agents.RecordSession 0 s) 6 ++ repeat (Agents.AssessSafety s) 6 in
  List.length (fst (Agents.run calls)) = 6%nat
  /\ List.length (snd (Agents.run calls)) = 5%nat.
Proof.
  split; reflexivity.
Qed.

(** C10. On a profile whose body parts are all among neck, hips, upper back
    and right calf, the guidelines hold no daily precaution and no warning
    sign; on every profile the emergency procedures are the same four
    entries; and on such a profile, when it is not empty,
    [analyze_injury_impact] raises [KeyError] at its first body part. *)
Theorem safety_guidelines_skip_unhandled :
  (forall injuries : InjuryProfile,
      Forall (fun entry => In (fst entry) [NECK; HIPS; UPPER_BACK; RIGHT_CALF]) injuries ->
      generate_safety_guidelines injuries
      = {| daily_precautions := []; warning_signs := [];
           emergency_procedures := fixed_emergency_procedures |})
  /\ (forall injuries : InjuryProfile,
         emergency_procedures (generate_safety_guidelines injuries)
         = fixed_emergency_procedures
         /\ List.length (emergency_procedures (generate_safety_guidelines injuries))
            = 4%nat)
  /\ (forall (b : BodyPart) (sev : InjurySeverity) (rest : InjuryProfile),
         In b [NECK; HIPS; UPPER_BACK; RIGHT_CALF] ->
         Coach.analyze_injury_impact ((b, sev) :: rest)
         = inl (KeyError (BodyPart_value b))).
Proof.
  split; [| split].
  - intros injuries Hall. unfold generate_safety_guidelines.
    assert (Hfold : forall g, fold_left guideline_step injuries g = g).
    { induction Hall as [| [b sev] rest Hb _ IH]; intros g; [reflexivity |].
      cbn [fold_left]. rewrite <- (IH g) at 2. f_equal.
      cbn in Hb. unfold guideline_step. cbn [fst].
      destruct Hb as [<- | [<- | [<- | [<- | []]]]]; reflexivity. }
    rewrite Hfold. reflexivity.
  - intros injuries. split; reflexivity.
  - intros b sev rest Hb. cbn in Hb.
    destruct Hb as [<- | [<- | [<- | [<- | []]]]]; reflexivity.
Qed.

Lemma safety_guidelines_skip_unhandled_witness :
  generate_safety_guidelines [(NECK, MILD); (HIPS, SEVERE)]
  = {| daily_precautions := []; warning_signs := [];
       emergency_procedures := fixed_emergency_procedures |}
  /\ Coach.analyze_injury_impact [(NECK, MILD); (HIPS, SEVERE)]
     = inl (KeyError "neck").
Proof.
  split.
  - apply (proj1 safety_guidelines_skip_unhandled).
    repeat constructor; cbn; tauto.
  - apply (proj2 (proj2 safety_guidelines_skip_unhandled) NECK MILD [(HIPS, SEVERE)]).
    cbn. tauto.
Defined.

End HistoryProperties.

(** ** The progress tracker *)

Section TrackerProperties.

Import Tracker.

Local Open Scope Q_scope.

Lemma gt_iff (q c : Q) : gt (Some q) c = true <-> c < q.
Proof.
  unfold gt. rewrite negb_true_iff, <- not_true_iff_false, Qle_bool_iff.
  split; [apply Qnot_le_lt | apply Qlt_not_le].
Qed.

Lemma lt_iff (q c : Q) : lt (Some q) c = true <-> q < c.
Proof.
  unfold lt. rewrite negb_true_iff, <- not_true_iff_false, Qle_bool_iff.
  split; [apply Qnot_le_lt | apply Qlt_not_le].
Qed.

Lemma gt_false_iff (q c : Q) : gt (Some q) c = false <-> q <= c.
Proof.
  unfold gt. rewrite negb_false_iff. apply Qle_bool_iff.
Qed.

Lemma lt_false_iff (q c : Q) : lt (Some q) c = false <-> c <= q.
Proof.
  unfold lt. rewrite negb_false_iff. apply Qle_bool_iff.
Qed.

(** The mean of a non-empty column is its exact quotient. *)
Lemma mean_nonempty {A : Type} (column : A -> Z) (data : list A) :
  data <> [] ->
  mean (map column data)
  = Some (sum (map column data) # Pos.of_nat (List.length data)).
Proof.
  destruct data as [| x data]; [intros H; contradiction H; reflexivity |].
  unfold mean. cbn [map]. rewrite <- (length_map column (x :: data)). reflexivity.
Qed.

Ltac reflect_means :=
  repeat match goal with
         | H : gt (Some _) _ = true |- _ => apply gt_iff in H
         | H : gt (Some _) _ = false |- _ => apply gt_false_iff in H
         | H : lt (Some _) _ = true |- _ => apply lt_iff in H
         | H : lt (Some _) _ = false |- _ => apply lt_false_iff in H
         end.

Lemma pain_recommendations_spec (p : Q) (t : string) :
  In t (pain_recommendations (Some p)) <->
  (6 < p /\ In t ["reduce_intensity_50_percent"; "focus_on_breathing_exercises";
                  "consult_healthcare_provider_if_persistent"])
  \/ (4 < p /\ p <= 6 /\ t = "maintain_current_intensity").
Proof.
  unfold pain_recommendations.
  destruct (gt (Some p) 6) eqn:H6; [| destruct (gt (Some p) 4) eqn:H4];
    reflect_means; cbn [In]; split.
  - intros Hin. left. split; [exact H6 | exact Hin].
  - intros [[_ Hin] | (_ & Hle & _)]; [exact Hin |].
    exfalso. apply (Qlt_not_le _ _ H6 Hle).
  - intros [<- | []]. right. repeat split; assumption.
  - intros [[Hgt _] | (_ & _ & ->)]; [| left; reflexivity].
    exfalso. apply (Qlt_not_le _ _ Hgt H6).
  - intros [].
  - intros [[Hgt _] | (Hgt & _ & _)]; exfalso.
    + apply (Qlt_not_le _ _ Hgt H6).
    + apply (Qlt_not_le _ _ Hgt H4).
Qed.

Lemma fatigue_recommendations_spec (f : Q) (t : string) :
  In t (fatigue_recommendations (Some f)) <->
  6 < f /\ In t ["ensure_adequate_rest"; "reduce_frequency_by_one_session";
                 "focus_on_recovery_nutrition"].
Proof.
  unfold fatigue_recommendations.
  destruct (gt (Some f) 6) eqn:H6; reflect_means; cbn [In]; split.
  - intros Hin. split; [exact H6 | exact Hin].
  - intros [_ Hin]. exact Hin.
  - intros [].
  - intros [Hgt _]. apply (Qlt_not_le _ _ Hgt H6).
Qed.

Lemma completion_recommendations_spec (c : Q) (t : string) :
  In t (completion_recommendations (Some c)) <->
  (90 < c /\ t = "consider_moderate_progression")
  \/ (c < 70 /\ t = "simplify_exercises_temporarily").
Proof.
  unfold completion_recommendations.
  destruct (gt (Some c) 90) eqn:H90; [| destruct (lt (Some c) 70) eqn:H70];
    reflect_means; cbn [In]; split.
  - intros [<- | []]. left. split; [exact H90 | reflexivity].
  - intros [[_ ->] | [Hlt _]]; [left; reflexivity |].
    exfalso. apply (Qlt_irrefl c).
    apply (Qlt_trans _ 70); [exact Hlt |].
    apply (Qlt_trans _ 90); [reflexivity | exact H90].
  - intros [<- | []]. right. split; [exact H70 | reflexivity].
  - intros [[Hgt _] | [_ ->]]; [| left; reflexivity].
    exfalso. apply (Qlt_not_le _ _ Hgt H90).
  - intros [].
  - intros [[Hgt _] | [Hlt _]]; exfalso.
    + apply (Qlt_not_le _ _ Hgt H90).
    + apply (Qlt_not_le _ _ Hlt H70).
Qed.

Lemma pain_recommendations_nil (p : Q) :
  pain_recommendations (Some p) = [] <-> p <= 4.
Proof.
  unfold pain_recommendations.
  destruct (gt (Some p) 6) eqn:H6; [| destruct (gt (Some p) 4) eqn:H4];
    reflect_means; split; try discriminate; try reflexivity; lra.
Qed.

Lemma fatigue_recommendations_nil (f : Q) :
  fatigue_recommendations (Some f) = [] <-> f <= 6.
Proof.
  unfold fatigue_recommendations.
  destruct (gt (Some f) 6) eqn:H6;
    reflect_means; split; try discriminate; try reflexivity; lra.
Qed.

Lemma completion_recommendations_nil (c : Q) :
  completion_recommendations (Some c) = [] <-> 70 <= c /\ c <= 90.
Proof.
  unfold completion_recommendations.
  destruct (gt (Some c) 90) eqn:H90; [| destruct (lt (Some c) 70) eqn:H70];
    reflect_means; split; try discriminate; try reflexivity; lra.
Qed.

(** [recommendations if recommendations else [fallback]]. *)
Lemma in_or_fallback (t fallback : string) (xs : list string) :
  In t (match xs with [] => [fallback] | _ => xs end)
  <-> In t xs \/ (xs = [] /\ t = fallback).
Proof.
  destruct xs as [| x xs]; cbn [In]; split.
  - intros [<- | []]. right. split; reflexivity.
  - intros [[] | [_ ->]]. left. reflexivity.
  - intros H. left. exact H.
  - intros [H | [Hnil _]]; [exact H | discriminate Hnil].
Qed.

Lemma tail_nil {A : Type} (n : Z) : tail n (@nil A) = [].
Proof.
  unfold tail, Py.last_n.
  destruct (n =? 0)%Z; [reflexivity |].
  destruct (0 <? n)%Z; apply skipn_nil.
Qed.

Lemma generate_recommendations_nodup (data : list Row) :
  NoDup (_generate_recommendations data).
Proof.
  unfold _generate_recommendations, pain_recommendations, fatigue_recommendations,
    completion_recommendations.
  generalize (mean (map pain_level data)) (mean (map fatigue_level data))
    (mean (map completion_percentage data)).
  intros mp mf mc. cbv zeta.
  destruct (gt mp 6), (gt mp 4), (gt mf 6), (gt mc 90), (lt mc 70); cbn [app];
    repeat (constructor; [cbn [In]; intuition discriminate |]); constructor.
Qed.

(** C7. On a non-empty window of feedback in range (pain and fatigue 0-10,
    completion 0-100, fewer than 2^32 rows, where the float64 means order
    against the thresholds as the exact means do) the recommendations hold a
    tag exactly when
    one of the threshold rules that carries it has fired, each tag once:
    mean pain > 6 gives the three reduce/breathing/consult tags, otherwise
    mean pain > 4 gives the maintain tag; mean fatigue > 6 gives the three
    rest/frequency/recovery tags; mean completion > 90 gives the progression
    tag and mean completion < 70 the simplify tag; and when no rule fires the
    list is the single tag continue_current_program. *)
Theorem recommendations_are_fired_rules (window_size : Z) (progress_data : list Row) :
  let data := tail window_size progress_data in
  let n := Pos.of_nat (List.length data) in
  let p := sum (map pain_level data) # n in
  let f := sum (map fatigue_level data) # n in
  let c := sum (map completion_percentage data) # n in
  let recs := report_recommendations (analyze_trends window_size progress_data) in
  data <> [] ->
  Notions.window_in_range data ->
  (forall t : string,
      In t recs <->
      (6 < p /\ In t ["reduce_intensity_50_percent"; "focus_on_breathing_exercises";
                      "consult_healthcare_provider_if_persistent"])
      \/ (4 < p /\ p <= 6 /\ t = "maintain_current_intensity")
      \/ (6 < f /\ In t ["ensure_adequate_rest"; "reduce_frequency_by_one_session";
                         "focus_on_recovery_nutrition"])
      \/ (90 < c /\ t = "consider_moderate_progression")
      \/ (c < 70 /\ t = "simplify_exercises_temporarily")
      \/ (p <= 4 /\ f <= 6 /\ 70 <= c /\ c <= 90 /\ t = "continue_current_program"))
  /\ NoDup recs
  /\ (p <= 4 -> f <= 6 -> 70 <= c -> c <= 90 -> recs = ["continue_current_program"]).
Proof.
  intros data n p f c recs Hdata _.
  assert (Hrecs : recs = _generate_recommendations data).
  { subst recs. destruct progress_data as [| r rest]; [| reflexivity].
    contradiction Hdata. apply tail_nil. }
  rewrite Hrecs. clear Hrecs recs.
  split; [| split].
  - intros t. unfold _generate_recommendations.
    rewrite !(mean_nonempty _ data Hdata).
    fold n. fold p. fold f. fold c.
    rewrite in_or_fallback, !in_app_iff.
    rewrite pain_recommendations_spec, fatigue_recommendations_spec,
      completion_recommendations_spec.
    split.
    + intros [H | [Hnil ->]]; [tauto |].
      apply app_eq_nil in Hnil. destruct Hnil as [Hp Hrest].
      apply app_eq_nil in Hrest. destruct Hrest as [Hf Hc].
      apply pain_recommendations_nil in Hp.
      apply fatigue_recommendations_nil in Hf.
      apply completion_recommendations_nil in Hc.
      do 5 right. tauto.
    + intros [H | [H | [H | [H | [H | (Hp & Hf & Hlo & Hhi & ->)]]]]]; try tauto.
      right. split; [| reflexivity].
      apply pain_recommendations_nil in Hp.
      apply fatigue_recommendations_nil in Hf.
      assert (Hc : completion_recommendations (Some c) = [])
        by (apply completion_recommendations_nil; split; assumption).
      rewrite Hp, Hf, Hc. reflexivity.
  - apply generate_recommendations_nodup.
  - intros Hp Hf Hlo Hhi. unfold _generate_recommendations.
    rewrite !(mean_nonempty _ data Hdata).
    fold n. fold p. fold f. fold c.
    apply pain_recommendations_nil in Hp.
    apply fatigue_recommendations_nil in Hf.
    assert (Hc : completion_recommendations (Some c) = [])
      by (apply completion_recommendations_nil; split; assumption).
    rewrite Hp, Hf, Hc. reflexivity.
Qed.

Lemma recommendations_are_fired_rules_witness :
  NoDup (report_recommendations
           (analyze_trends default_window
              [mkRow 0 FOUNDATION 1 15 8 7 0 4 0 50 ""; mkRow 0 FOUNDATION 2 15 7 7 0 4 0 60 ""]))
  /\ report_recommendations
       (analyze_trends default_window
          [mkRow 0 FOUNDATION 1 15 3 2 0 4 0 80 ""; mkRow 0 FOUNDATION 2 15 2 2 0 4 0 85 ""])
     = ["continue_current_program"].
Proof.
  split.
  - apply (proj1 (proj2 (recommendations_are_fired_rules default_window
             [mkRow 0 FOUNDATION 1 15 8 7 0 4 0 50 "";
              mkRow 0 FOUNDATION 2 15 7 7 0 4 0 60 ""]
             ltac:(vm_compute; discriminate)
             ltac:(split; [repeat constructor; cbn; lia | vm_compute; reflexivity])))).
  - apply (proj2 (proj2 (recommendations_are_fired_rules default_window
             [mkRow 0 FOUNDATION 1 15 3 2 0 4 0 80 "";
              mkRow 0 FOUNDATION 2 15 2 2 0 4 0 85 ""]
             ltac:(vm_compute; discriminate)
             ltac:(split; [repeat constructor; cbn; lia | vm_compute; reflexivity]))));
      vm_compute; discriminate.
Defined.

(** C8. On an empty log, whatever the window size, the report is the
    sentinel: status "no_data" and the one recommendation
    "continue_baseline". *)
Theorem analyze_trends_empty_log (window_size : Z) :
  analyze_trends window_size [] = NoData "no_data" ["continue_baseline"]
  /\ report_recommendations (analyze_trends window_size []) = ["continue_baseline"].
Proof.
  split; reflexivity.
Qed.

End TrackerProperties.

(** ** The program coordinator *)

Section ProgramProperties.

Import Program.

(** The phase boundaries are the running totals of the knowledge base's
    [phase_duration_weeks]. *)
Lemma phase_boundaries_from_knowledge_base :
  AIAgent.phase_duration_weeks FOUNDATION = 12
  /\ AIAgent.phase_duration_weeks FOUNDATION + AIAgent.phase_duration_weeks BUILDING = 24
  /\ AIAgent.phase_duration_weeks FOUNDATION + AIAgent.phase_duration_weeks BUILDING
     + AIAgent.phase_duration_weeks INTEGRATION = 36
  /\ AIAgent.phase_duration_weeks FOUNDATION + AIAgent.phase_duration_weeks BUILDING
     + AIAgent.phase_duration_weeks INTEGRATION + AIAgent.phase_duration_weeks MASTERY
     = last_week.
Proof.
  repeat split; reflexivity.
Qed.


Lemma validate_in_range (field : string) (lo hi v : Z) :
  lo <= v <= hi -> validate field lo hi v = inr tt.
Proof.
  intros [Hlo Hhi]. unfold validate.
  apply Z.leb_le in Hlo. apply Z.leb_le in Hhi. rewrite Hlo, Hhi. reflexivity.
Qed.

Lemma validate_out_of_range (field : string) (lo hi v : Z) :
  v < lo \/ hi < v -> validate field lo hi v = inl (ValidationError field).
Proof.
  intros H. unfold validate.
  destruct (lo <=? v) eqn:Hlo; [| reflexivity].
  destruct (v <=? hi) eqn:Hhi; [| reflexivity].
  apply Z.leb_le in Hlo. apply Z.leb_le in Hhi. lia.
Qed.

(** One call: with feedback in range and a profile the plan generator handles,
    the call returns, the week advances by one up to week 52, and the phase is
    that of the new week. *)
Lemma completeSession_advances
  (now : Z) (st : ProgramState) (f : Feedback) :
  valid_feedback f ->
  supported_profile (injuries st) ->
  exists st',
    completeSession now st (fb_pain f) (fb_fatigue f) (fb_completion f) (fb_notes f)
    = inr st'
    /\ current_week st' = Z.min (current_week st + 1) 52
    /\ current_phase st' = phase_of_week (current_week st')
    /\ injuries st' = injuries st.
Proof.
  intros (Hp & Hf & Hc) Hprofile.
  destruct (plan_for_profile_supported (Some (current_phase st)) (injuries st)
              (current_week st) Hprofile) as (ia & _ & Hplan).
  unfold completeSession, getCurrentWorkout.
  rewrite (validate_in_range _ _ _ _ Hp), (validate_in_range _ _ _ _ Hf),
    (validate_in_range _ _ _ _ Hc), Hplan.
  cbn [bind ret]. unfold Tracker.record_session, session_record.
  cbn [sd_phase sd_week sd_duration_minutes sd_exercises item bind ret].
  eexists. split; [reflexivity |].
  cbn [current_week current_phase injuries]. unfold last_week.
  repeat split; reflexivity.
Qed.




Lemma demo_profile_supported : supported_profile demo_profile.
Proof.
  repeat constructor.
Qed.


(** At week 52 a completed session leaves the week at 52, in Mastery. *)
Lemma completeSession_clamped (now : Z) (st : ProgramState) (f : Feedback) :
  valid_feedback f ->
  supported_profile (injuries st) ->
  current_week st = 52 ->
  exists st',
    completeSession now st (fb_pain f) (fb_fatigue f) (fb_completion f) (fb_notes f)
    = inr st'
    /\ current_week st' = 52 /\ current_phase st' = MASTERY.
Proof.
  intros Hf Hprofile H52.
  destruct (completeSession_advances now st f Hf Hprofile)
    as (st' & Hstep & Hweek & Hphase & _).
  exists st'. rewrite H52 in Hweek. cbn in Hweek.
  split; [exact Hstep |]. split; [exact Hweek |].
  rewrite Hphase, Hweek. reflexivity.
Qed.

(** A value out of range is rejected and no state is produced. *)
Lemma completeSession_rejects_pain (now : Z) (st : ProgramState)
  (pain fatigue completionPct : Z) (notes : option string) :
  pain < 0 \/ 10 < pain ->
  completeSession now st pain fatigue completionPct notes
  = inl (ValidationError "pain_level").
Proof.
  intros H. unfold completeSession.
  rewrite (validate_out_of_range _ _ _ _ H). reflexivity.
Qed.

End ProgramProperties.

(** ** More on the plan generator *)

Section CoachSummaries.

Import Coach Notions.

Lemma for_each_app {A S : Type} (body : S -> A -> result S) (xs ys : list A) :
  forall acc : S,
    for_each body (xs ++ ys) acc
    = (acc' <- for_each body xs acc ;; for_each body ys acc').
Proof.
  induction xs as [| x xs IH]; intros acc; [reflexivity |].
  cbn [app for_each]. destruct (body acc x) as [e | acc1]; [reflexivity |].
  cbn [bind]. apply IH.
Qed.

Lemma impact_app_empty_r (a : ImpactAssessment) : impact_app a empty_impact = a.
Proof.
  destruct a. unfold impact_app. cbn. rewrite !app_nil_r. reflexivity.
Qed.

Lemma impact_app_empty_l (a : ImpactAssessment) : impact_app empty_impact a = a.
Proof.
  destruct a. reflexivity.
Qed.

Lemma impact_step_shift (acc1 acc2 r : ImpactAssessment) (entry : BodyPart * InjurySeverity) :
  impact_step acc2 entry = inr r ->
  impact_step (impact_app acc1 acc2) entry = inr (impact_app acc1 r).
Proof.
  destruct entry as [b sev]. unfold impact_step, AIAgent.injury_modifications.
  destruct (AIAgent._load_injury_modifications b) as [m |]; [| discriminate].
  cbn [item bind ret]. intros H. injection H as <-.
  unfold impact_app. cbn. rewrite !app_assoc. reflexivity.
Qed.

Lemma impact_step_error (acc1 acc2 : ImpactAssessment) (entry : BodyPart * InjurySeverity)
  (e : exn) :
  impact_step acc2 entry = inl e -> impact_step acc1 entry = inl e.
Proof.
  destruct entry as [b sev]. unfold impact_step, AIAgent.injury_modifications.
  destruct (AIAgent._load_injury_modifications b) as [m |]; [discriminate |].
  intros H. exact H.
Qed.

Lemma for_each_impact_shift (profile : InjuryProfile) :
  forall acc1 acc2 : ImpactAssessment,
    for_each impact_step profile (impact_app acc1 acc2)
    = match for_each impact_step profile acc2 with
      | inr r => inr (impact_app acc1 r)
      | inl e => inl e
      end.
Proof.
  induction profile as [| entry rest IH]; intros acc1 acc2; [reflexivity |].
  cbn [for_each].
  destruct (impact_step acc2 entry) as [e | r] eqn:Hstep.
  - rewrite (impact_step_error _ _ _ _ Hstep). reflexivity.
  - rewrite (impact_step_shift acc1 _ _ _ Hstep). cbn [bind]. apply IH.
Qed.

Lemma for_each_impact_from (profile : InjuryProfile) (acc : ImpactAssessment) :
  for_each impact_step profile acc
  = match for_each impact_step profile empty_impact with
    | inr r => inr (impact_app acc r)
    | inl e => inl e
    end.
Proof.
  rewrite <- for_each_impact_shift, impact_app_empty_r. reflexivity.
Qed.

(** X1. The summary of a concatenated profile is the field by field
    concatenation of the two summaries, so the entries follow the order of the
    profile; when the first part raises, the whole raises the same error. *)
Theorem analyze_injury_impact_app (p1 p2 : InjuryProfile) :
  (forall a b : ImpactAssessment,
      analyze_injury_impact p1 = inr a ->
      analyze_injury_impact p2 = inr b ->
      analyze_injury_impact (p1 ++ p2) = inr (impact_app a b))
  /\ (forall e : exn,
         analyze_injury_impact p1 = inl e ->
         analyze_injury_impact (p1 ++ p2) = inl e)
  /\ (forall (a : ImpactAssessment) (e : exn),
         analyze_injury_impact p1 = inr a ->
         analyze_injury_impact p2 = inl e ->
         analyze_injury_impact (p1 ++ p2) = inl e).
Proof.
  unfold analyze_injury_impact. rewrite for_each_app.
  split; [| split].
  - intros a b Ha Hb. rewrite Ha. cbn [bind].
    rewrite for_each_impact_from, Hb. reflexivity.
  - intros e He. rewrite He. reflexivity.
  - intros a e Ha He. rewrite Ha. cbn [bind].
    rewrite for_each_impact_from, He. reflexivity.
Qed.

Lemma analyze_injury_impact_app_witness :
  exists a b,
    analyze_injury_impact [(LEFT_CALF, SEVERE)] = inr a
    /\ analyze_injury_impact [(LOWER_BACK, MILD)] = inr b
    /\ analyze_injury_impact ([(LEFT_CALF, SEVERE)] ++ [(LOWER_BACK, MILD)])
       = inr (impact_app a b).
Proof.
  eexists. eexists. split; [reflexivity |]. split; [reflexivity |].
  apply (proj1 (analyze_injury_impact_app [(LEFT_CALF, SEVERE)] [(LOWER_BACK, MILD)]));
    reflexivity.
Defined.

Lemma for_each_impact_sizes (profile : InjuryProfile) :
  forall acc ia : ImpactAssessment,
    for_each impact_step profile acc = inr ia ->
    List.length (restrictions ia)
    = (List.length (restrictions acc) + 3 * List.length profile)%nat
    /\ List.length (modifications ia)
       = (List.length (modifications acc) + 3 * List.length profile)%nat
    /\ List.length (focus_areas ia)
       = (List.length (focus_areas acc) + 3 * List.length profile)%nat
    /\ List.length (compensatory_strategies ia)
       = (List.length (compensatory_strategies acc) + 3 * List.length profile)%nat
    /\ List.length (rehabilitation_focus ia)
       = (List.length (rehabilitation_focus acc) + List.length profile)%nat
    /\ risk_factors ia = risk_factors acc.
Proof.
  induction profile as [| [b sev] rest IH]; intros acc ia Hrun.
  - cbn in Hrun. injection Hrun as <-. cbn. repeat split; lia.
  - cbn [for_each] in Hrun. unfold impact_step at 1, AIAgent.injury_modifications in Hrun.
    destruct (AIAgent._load_injury_modifications b) as [m |] eqn:Hm;
      [| discriminate Hrun].
    cbn [item bind ret] in Hrun. apply IH in Hrun.
    cbn [restrictions modifications focus_areas compensatory_strategies
         rehabilitation_focus risk_factors] in Hrun.
    rewrite !length_app, length_map in Hrun.
    assert (Hlen : List.length (AIAgent.avoid m) = 3%nat
                   /\ List.length (AIAgent.modify m) = 3%nat
                   /\ List.length (AIAgent.compensatory m) = 3%nat
                   /\ List.length (fst (body_part_focus b)) = 3%nat
                   /\ List.length (snd (body_part_focus b)) = 1%nat).
    { destruct b; try discriminate Hm; injection Hm as <-; repeat split. }
    destruct Hlen as (H1 & H2 & H3 & H4 & H5).
    rewrite H1, H2, H3, H4, H5 in Hrun. cbn [List.length].
    destruct Hrun as (R1 & R2 & R3 & R4 & R5 & R6).
    repeat split; try lia. exact R6.
Qed.

(** X2. When [analyze_injury_impact] returns, every injury has contributed
    three restrictions, three modifications, three focus areas, three
    compensatory strategies and one rehabilitation focus, and the
    ["risk_factors"] entry is still empty. *)
Theorem analyze_injury_impact_sizes (profile : InjuryProfile) (ia : ImpactAssessment) :
  analyze_injury_impact profile = inr ia ->
  List.length (restrictions ia) = (3 * List.length profile)%nat
  /\ List.length (modifications ia) = (3 * List.length profile)%nat
  /\ List.length (focus_areas ia) = (3 * List.length profile)%nat
  /\ List.length (compensatory_strategies ia) = (3 * List.length profile)%nat
  /\ List.length (rehabilitation_focus ia) = List.length profile
  /\ risk_factors ia = [].
Proof.
  intros Hrun. apply for_each_impact_sizes in Hrun. cbn in Hrun. exact Hrun.
Qed.

Lemma analyze_injury_impact_sizes_witness :
  exists ia,
    analyze_injury_impact Program.demo_profile = inr ia
    /\ List.length (restrictions ia) = 12%nat
    /\ risk_factors ia = [].
Proof.
  eexists. split; [reflexivity |].
  split; [| apply (analyze_injury_impact_sizes Program.demo_profile _ eq_refl)].
  apply (proj1 (analyze_injury_impact_sizes Program.demo_profile _ eq_refl)).
Defined.

End CoachSummaries.

Section CoachRules.

Import Coach Notions.

Ltac rule_cases ia e :=
  destruct (shoulder_rule ia e), (standing_rule ia e), (back_rule ia e); cbn.

Lemma mentions_app (word : string) (a : ImpactAssessment) (extra : list string) :
  Py.any (Py.contains word) (restrictions a ++ extra)
  = mentions word a || Py.any (Py.contains word) extra.
Proof.
  unfold mentions, Py.any. apply existsb_app.
Qed.

Lemma for_each_impact_mentions (profile : InjuryProfile) :
  forall acc ia : ImpactAssessment,
    for_each impact_step profile acc = inr ia ->
    mentions "shoulder" ia
    = mentions "shoulder" acc || existsb is_shoulder (body_parts profile)
    /\ mentions "standing" ia
       = mentions "standing" acc || existsb is_left_calf (body_parts profile).
Proof.
  induction profile as [| [b sev] rest IH]; intros acc ia Hrun.
  - cbn in Hrun. injection Hrun as <-. cbn. rewrite !orb_false_r. split; reflexivity.
  - cbn [for_each] in Hrun. unfold impact_step at 1, AIAgent.injury_modifications in Hrun.
    destruct (AIAgent._load_injury_modifications b) as [m |] eqn:Hm;
      [| discriminate Hrun].
    cbn [item bind ret] in Hrun. apply IH in Hrun. destruct Hrun as [Hsh Hst].
    rewrite Hsh, Hst. unfold mentions at 1 3. cbn [restrictions].
    rewrite !mentions_app. cbn [body_parts map fst existsb].
    assert (Hnew : Py.any (Py.contains "shoulder") (map (annotate sev) (AIAgent.avoid m))
                   = is_shoulder b
                   /\ Py.any (Py.contains "standing") (map (annotate sev) (AIAgent.avoid m))
                      = is_left_calf b).
    { destruct b; try discriminate Hm; injection Hm as <-;
        destruct sev; split; vm_compute; reflexivity. }
    destruct Hnew as [-> ->]. fold (body_parts rest).
    rewrite !orb_assoc. split; reflexivity.
Qed.

(** X3. On the summary of a profile, the shoulder group matches exactly when
    the profile holds a shoulder and the exercise is cloud_hands or ward_off;
    the standing group exactly when it holds the left calf and the exercise is
    a qigong or a forms exercise; the back group never matches, a lower-back
    injury included. *)
Theorem rule_groups_by_body_part
  (profile : InjuryProfile) (ia : ImpactAssessment) (e : Exercise) :
  analyze_injury_impact profile = inr ia ->
  shoulder_rule ia e
  = existsb is_shoulder (body_parts profile) && Py.mem (name e) ["cloud_hands"; "ward_off"]
  /\ standing_rule ia e
     = existsb is_left_calf (body_parts profile) && Py.mem (category e) ["qigong"; "forms"]
  /\ back_rule ia e = false.
Proof.
  intros Hrun.
  destruct (for_each_impact_mentions profile empty_impact ia Hrun) as [Hsh Hst].
  unfold shoulder_rule, standing_rule. rewrite Hsh, Hst.
  repeat split. apply (back_rule_never_fires profile ia e Hrun).
Qed.

Lemma rule_groups_by_body_part_witness :
  exists ia,
    analyze_injury_impact [(LOWER_BACK, SEVERE)] = inr ia
    /\ back_rule ia (ex "forms" "ward_off" 10) = false.
Proof.
  eexists. split; [reflexivity |].
  apply (rule_groups_by_body_part [(LOWER_BACK, SEVERE)] _ (ex "forms" "ward_off" 10) eq_refl).
Defined.

Lemma impact_step_eq (acc : ImpactAssessment) (b : BodyPart) (sev : InjurySeverity) :
  impact_step acc (b, sev)
  = match AIAgent._load_injury_modifications b with
    | Some m =>
        inr {| restrictions := restrictions acc ++ map (annotate sev) (AIAgent.avoid m);
               modifications := modifications acc ++ AIAgent.modify m;
               focus_areas := focus_areas acc ++ fst (body_part_focus b);
               compensatory_strategies :=
                 compensatory_strategies acc ++ AIAgent.compensatory m;
               risk_factors := risk_factors acc;
               rehabilitation_focus :=
                 rehabilitation_focus acc ++ snd (body_part_focus b) |}
    | None => inl (KeyError (BodyPart_value b))
    end.
Proof.
  unfold impact_step, AIAgent.injury_modifications.
  destruct (AIAgent._load_injury_modifications b); reflexivity.
Qed.

(** The entries of a summary other than the restrictions are read off the
    body parts alone, and so is the error. *)
Lemma for_each_impact_severity (p1 : InjuryProfile) :
  forall (p2 : InjuryProfile) (acc1 acc2 : ImpactAssessment),
    body_parts p1 = body_parts p2 ->
    modifications acc1 = modifications acc2 ->
    focus_areas acc1 = focus_areas acc2 ->
    match for_each impact_step p1 acc1, for_each impact_step p2 acc2 with
    | inr a, inr b =>
        modifications a = modifications b /\ focus_areas a = focus_areas b
    | inl e1, inl e2 => e1 = e2
    | _, _ => False
    end.
Proof.
  induction p1 as [| [b s1] rest1 IH]; intros [| [b' s2] rest2] acc1 acc2 Hparts Hm Hf;
    try discriminate Hparts.
  - cbn. split; assumption.
  - cbn [body_parts map fst] in Hparts. injection Hparts as <- Hrest.
    cbn [for_each]. rewrite !impact_step_eq.
    destruct (AIAgent._load_injury_modifications b) as [m |];
      cbn [bind]; [| reflexivity].
    apply IH; [exact Hrest | |]; cbn; congruence.
Qed.

Lemma modify_exercise_same_rules (ia1 ia2 : ImpactAssessment) (e : Exercise) :
  shoulder_rule ia1 e = shoulder_rule ia2 e ->
  standing_rule ia1 e = standing_rule ia2 e ->
  back_rule ia1 e = back_rule ia2 e ->
  modify_exercise ia1 e = modify_exercise ia2 e.
Proof.
  intros H1 H2 H3. unfold modify_exercise. rewrite H1, H2, H3. reflexivity.
Qed.

(** X4. The severities of a profile reach the plan through the text of the
    precautions only: two profiles with the same body parts in the same order
    either both raise the same error or give plans with the same exercises,
    duration, frequency, modifications, focus points and energy focus. *)
Theorem plan_ignores_severity
  (p1 p2 : InjuryProfile) (phase : PhaseArg) (week : Z) :
  body_parts p1 = body_parts p2 ->
  match plan_for_profile phase p1 week, plan_for_profile phase p2 week with
  | inr a, inr b =>
      wp_exercises a = wp_exercises b
      /\ wp_duration_minutes a = wp_duration_minutes b
      /\ wp_frequency_per_week a = wp_frequency_per_week b
      /\ wp_modifications a = wp_modifications b
      /\ wp_focus_points a = wp_focus_points b
      /\ wp_energy_focus a = wp_energy_focus b
  | inl e1, inl e2 => e1 = e2
  | _, _ => False
  end.
Proof.
  intros Hparts.
  pose proof (for_each_impact_severity p1 p2 empty_impact empty_impact Hparts
                eq_refl eq_refl) as Hsame.
  unfold plan_for_profile.
  fold (analyze_injury_impact p1) in Hsame. fold (analyze_injury_impact p2) in Hsame.
  destruct (analyze_injury_impact p1) as [e1 | a] eqn:H1,
           (analyze_injury_impact p2) as [e2 | b] eqn:H2;
    cbn [bind ret]; try exact Hsame.
  destruct Hsame as [Hm Hf].
  destruct (for_each_impact_mentions p1 empty_impact a H1) as [Hsh1 Hst1].
  destruct (for_each_impact_mentions p2 empty_impact b H2) as [Hsh2 Hst2].
  rewrite Hparts in Hsh1, Hst1.
  assert (Hstanding : mentions "standing" a = mentions "standing" b) by congruence.
  cbn [generate_workout_plan wp_exercises wp_duration_minutes wp_frequency_per_week
       wp_modifications wp_focus_points wp_energy_focus].
  split; [| split; [| repeat split; congruence]].
  - unfold _apply_injury_modifications, _select_phase_exercises.
    apply map_ext. intros e. apply modify_exercise_same_rules.
    + destruct (rule_groups_by_body_part p1 a e H1) as (-> & _ & _).
      destruct (rule_groups_by_body_part p2 b e H2) as (-> & _ & _).
      rewrite Hparts. reflexivity.
    + destruct (rule_groups_by_body_part p1 a e H1) as (_ & -> & _).
      destruct (rule_groups_by_body_part p2 b e H2) as (_ & -> & _).
      rewrite Hparts. reflexivity.
    + destruct (rule_groups_by_body_part p1 a e H1) as (_ & _ & ->).
      destruct (rule_groups_by_body_part p2 b e H2) as (_ & _ & ->).
      reflexivity.
  - unfold _calculate_optimal_duration. rewrite Hstanding. reflexivity.
Qed.

Lemma plan_ignores_severity_witness :
  match plan_for_profile (Some BUILDING) [(LEFT_CALF, MILD)] 14,
        plan_for_profile (Some BUILDING) [(LEFT_CALF, SEVERE)] 14 with
  | inr a, inr b =>
      wp_exercises a = wp_exercises b
      /\ wp_duration_minutes a = wp_duration_minutes b
      /\ wp_frequency_per_week a = wp_frequency_per_week b
      /\ wp_modifications a = wp_modifications b
      /\ wp_focus_points a = wp_focus_points b
      /\ wp_energy_focus a = wp_energy_focus b
  | inl e1, inl e2 => e1 = e2
  | _, _ => False
  end.
Proof.
  apply (plan_ignores_severity [(LEFT_CALF, MILD)] [(LEFT_CALF, SEVERE)]).
  reflexivity.
Defined.

End CoachRules.

Section CoachPlans.

Import Coach Notions.

Ltac rule_split ia e :=
  destruct (shoulder_rule ia e), (standing_rule ia e), (back_rule ia e); cbn.

(** X5. The precautions, the modifications and the focus points of a plan
    come from the first injury of the profile alone: they are its three
    annotated restrictions, its three modifications and the first two of its
    focus areas, whatever injuries follow. *)
Theorem plan_lists_from_first_injury
  (b : BodyPart) (sev : InjurySeverity) (rest : InjuryProfile)
  (m : AIAgent.Modification) (ia : ImpactAssessment) (phase : PhaseArg) (week : Z) :
  AIAgent._load_injury_modifications b = Some m ->
  analyze_injury_impact ((b, sev) :: rest) = inr ia ->
  wp_precautions (generate_workout_plan phase ia week)
  = map (annotate sev) (AIAgent.avoid m)
  /\ wp_modifications (generate_workout_plan phase ia week) = AIAgent.modify m
  /\ wp_focus_points (generate_workout_plan phase ia week)
     = firstn 2 (fst (body_part_focus b)).
Proof.
  intros Hm Hrun. unfold analyze_injury_impact in Hrun. cbn [for_each] in Hrun.
  rewrite impact_step_eq, Hm in Hrun. cbn [bind] in Hrun.
  rewrite for_each_impact_from in Hrun.
  destruct (for_each impact_step rest empty_impact) as [e | r]; [discriminate Hrun |].
  injection Hrun as <-.
  cbn [generate_workout_plan wp_precautions wp_modifications wp_focus_points
       impact_app restrictions modifications focus_areas empty_impact app].
  destruct b; try discriminate Hm; injection Hm as <-; repeat split.
Qed.

Lemma plan_lists_from_first_injury_witness :
  exists ia,
    analyze_injury_impact Program.demo_profile = inr ia
    /\ wp_precautions (generate_workout_plan (Some FOUNDATION) ia 1)
       = ["high arm raises (moderate)"; "shoulder rotations (moderate)";
          "weight bearing on arms (moderate)"].
Proof.
  eexists. split; [reflexivity |].
  apply (plan_lists_from_first_injury LEFT_SHOULDER MODERATE
           [(RIGHT_SHOULDER, MILD); (LEFT_CALF, MODERATE); (LOWER_BACK, MILD)]
           AIAgent.shoulder_entry _ (Some FOUNDATION) 1 eq_refl eq_refl).
Defined.

Lemma modify_exercise_keeps_identity (ia : ImpactAssessment) (e : Exercise) :
  name (modify_exercise ia e) = name e /\ category (modify_exercise ia e) = category e.
Proof.
  unfold modify_exercise. rule_split ia e; split; reflexivity.
Qed.

Lemma sum_le (xs ys : list Z) :
  Forall2 Z.le xs ys -> Tracker.sum xs <= Tracker.sum ys.
Proof.
  unfold Tracker.sum.
  induction 1 as [| x y xs ys Hxy _ IH]; cbn [fold_right]; lia.
Qed.

(** X6. [_apply_injury_modifications] keeps the number, the order, the names
    and the categories of the exercises; when every exercise lasts at least
    three minutes, every returned exercise lasts between three minutes and its
    former duration, so the total time never grows. *)
Theorem apply_modifications_shape (exercises : list Exercise) (ia : ImpactAssessment) :
  map name (_apply_injury_modifications exercises ia) = map name exercises
  /\ map category (_apply_injury_modifications exercises ia) = map category exercises
  /\ (Forall (fun e => 3 <= duration e) exercises ->
      Forall (fun e => 3 <= duration e) (_apply_injury_modifications exercises ia)
      /\ Forall2 (fun e' e => duration e' <= duration e)
                 (_apply_injury_modifications exercises ia) exercises
      /\ total_duration (_apply_injury_modifications exercises ia)
         <= total_duration exercises).
Proof.
  unfold _apply_injury_modifications.
  split; [| split].
  - rewrite map_map. apply map_ext. intros e. apply modify_exercise_keeps_identity.
  - rewrite map_map. apply map_ext. intros e. apply modify_exercise_keeps_identity.
  - intros Hall.
    assert (Hpair : Forall2 (fun e' e => duration e' <= duration e)
                            (map (modify_exercise ia) exercises) exercises).
    { induction Hall as [| e es He _ IH]; constructor; [| exact IH].
      apply (modify_exercise_floor ia e He). }
    split; [| split; [exact Hpair |]].
    + apply Forall_map. apply Forall_impl with (2 := Hall).
      intros e He. apply (modify_exercise_floor ia e He).
    + unfold total_duration. apply sum_le.
      clear Hall. induction Hpair; constructor; assumption.
Qed.

Lemma apply_modifications_shape_witness :
  total_duration
    (_apply_injury_modifications building_exercises
       {| restrictions := ["prolonged standing (mild)"]; modifications := [];
          focus_areas := []; compensatory_strategies := []; risk_factors := [];
          rehabilitation_focus := [] |})
  <= total_duration building_exercises.
Proof.
  apply (proj2 (proj2 (apply_modifications_shape building_exercises _))).
  repeat constructor; cbn; lia.
Defined.

(** X7. An exercise that is neither a qigong nor a forms exercise and is not
    named cloud_hands, ward_off or press comes back unchanged under every
    summary; and under a summary without restrictions every exercise does. *)
Theorem apply_modifications_untouched :
  (forall (ia : ImpactAssessment) (e : Exercise),
      Py.mem (category e) ["qigong"; "forms"] = false ->
      Py.mem (name e) ["cloud_hands"; "ward_off"; "press"] = false ->
      modify_exercise ia e = e)
  /\ (forall (ia : ImpactAssessment) (exercises : list Exercise),
         restrictions ia = [] ->
         _apply_injury_modifications exercises ia = exercises).
Proof.
  split.
  - intros ia e Hcat Hname.
    assert (Hsh : shoulder_rule ia e = false).
    { unfold shoulder_rule. apply andb_false_intro2.
      unfold Py.mem in *. cbn [existsb] in *.
      destruct (String.eqb (name e) "cloud_hands"); [discriminate Hname |].
      destruct (String.eqb (name e) "ward_off"); [discriminate Hname | reflexivity]. }
    assert (Hst : standing_rule ia e = false).
    { unfold standing_rule. apply andb_false_intro2. exact Hcat. }
    assert (Hbk : back_rule ia e = false).
    { unfold back_rule. apply andb_false_intro2.
      unfold Py.mem in *. cbn [existsb] in *.
      destruct (String.eqb (name e) "cloud_hands"); [discriminate Hname |].
      destruct (String.eqb (name e) "ward_off"); [discriminate Hname |].
      destruct (String.eqb (name e) "press"); [discriminate Hname | reflexivity]. }
    unfold modify_exercise. rewrite Hsh, Hst, Hbk. reflexivity.
  - intros ia exercises Hnone. unfold _apply_injury_modifications.
    rewrite <- (map_id exercises) at 2. apply map_ext. intros e.
    unfold modify_exercise, shoulder_rule, standing_rule, back_rule, mentions.
    rewrite Hnone. reflexivity.
Qed.

Lemma apply_modifications_untouched_witness :
  modify_exercise
    {| restrictions := ["prolonged standing (mild)"; "shoulder rotations (mild)"];
       modifications := []; focus_areas := []; compensatory_strategies := [];
       risk_factors := []; rehabilitation_focus := [] |}
    (ex "breathing" "reverse_breathing" 5)
  = ex "breathing" "reverse_breathing" 5
  /\ _apply_injury_modifications advanced_exercises empty_impact = advanced_exercises.
Proof.
  split.
  - apply (proj1 apply_modifications_untouched _ (ex "breathing" "reverse_breathing" 5));
      reflexivity.
  - apply (proj2 apply_modifications_untouched empty_impact advanced_exercises).
    reflexivity.
Defined.

(** X8. From week 1 on, a standing restriction never lengthens the session
    and shortens it by at most five minutes. *)
Theorem standing_penalty_bounds
  (phase : PhaseArg) (week : Z) (with_standing without : ImpactAssessment) :
  1 <= week ->
  mentions "standing" with_standing = true ->
  mentions "standing" without = false ->
  _calculate_optimal_duration phase week without - 5
  <= _calculate_optimal_duration phase week with_standing
  <= _calculate_optimal_duration phase week without.
Proof.
  intros Hweek Hyes Hno. unfold _calculate_optimal_duration, base_durations.
  rewrite Hyes, Hno. destruct phase as [[] |]; lia.
Qed.

Lemma standing_penalty_bounds_witness :
  exists ia,
    analyze_injury_impact [(LEFT_CALF, MILD)] = inr ia
    /\ _calculate_optimal_duration (Some MASTERY) 40 empty_impact - 5
       <= _calculate_optimal_duration (Some MASTERY) 40 ia
       <= _calculate_optimal_duration (Some MASTERY) 40 empty_impact.
Proof.
  eexists. split; [reflexivity |].
  apply standing_penalty_bounds; [lia | reflexivity | reflexivity].
Defined.

End CoachPlans.

Section CatalogueProperties.

Import Coach Library.

(** X9. Every exercise that [_select_phase_exercises] prescribes is an entry
    of the exercise library under its category, of difficulty 1 or 2, except
    roll_back and press, for which the library has no entry; the Foundation
    and Building programs are fully covered. *)
Theorem prescribed_exercises_in_library
  (phase : PhaseArg) (ia : ImpactAssessment) (week : Z) (e : Exercise) :
  In e (_select_phase_exercises phase ia week) ->
  (exists entry, entry_of (category e) (name e) = inr entry
                 /\ 1 <= difficulty entry <= 2)
  \/ (Py.mem (name e) ["roll_back"; "press"] = true
      /\ phase <> Some FOUNDATION /\ phase <> Some BUILDING
      /\ entry_of (category e) (name e) = inl (KeyError (name e))).
Proof.
  intros Hin.
  destruct phase as [[] |]; cbn in Hin;
    repeat (destruct Hin as [<- | Hin];
            [first [ left; eexists; split; [reflexivity | split; discriminate]
                   | right; repeat split; try reflexivity; discriminate ] |]);
    contradiction Hin.
Qed.

Lemma prescribed_exercises_in_library_witness :
  (exists entry, entry_of "forms" "press" = inr entry /\ 1 <= difficulty entry <= 2)
  \/ (Py.mem "press" ["roll_back"; "press"] = true
      /\ Some MASTERY <> Some FOUNDATION /\ Some MASTERY <> Some BUILDING
      /\ entry_of "forms" "press" = inl (KeyError "press")).
Proof.
  apply (prescribed_exercises_in_library (Some MASTERY) empty_impact 40
           (ex "forms" "press" 8)).
  cbn. tauto.
Defined.

End CatalogueProperties.

(** ** More on the progress tracker *)

Section TrackerWindows.

Import Tracker Notions.

(** X10. [record_session] returns exactly when the four subscripted keys
    phase, week, duration_minutes and exercises are present; it then appends
    one row to the frame, the rows before it unchanged, with 0 for a missing
    pain, fatigue or mood level and 100 for a missing completion percentage;
    a dict that lacks only the exercises raises [KeyError] on that key. *)
Theorem record_session_keys (now : Z) (frame : list Row) (s : SessionData) :
  ((exists frame', record_session now frame s = inr frame')
   <-> sd_phase s <> None /\ sd_week s <> None /\ sd_duration_minutes s <> None
       /\ sd_exercises s <> None)
  /\ (forall frame',
         record_session now frame s = inr frame' ->
         exists row,
           frame' = frame ++ [row]
           /\ pain_level row = get (sd_pain_level s) 0
           /\ fatigue_level row = get (sd_fatigue_level s) 0
           /\ mood_level row = get (sd_mood_level s) 0
           /\ completion_percentage row = get (sd_completion_percentage s) 100
           /\ exercises_completed row = Py.len (get (sd_exercises s) []))
  /\ (sd_phase s <> None -> sd_week s <> None -> sd_duration_minutes s <> None ->
      sd_exercises s = None ->
      record_session now frame s = inl (KeyError "exercises")).
Proof.
  unfold record_session.
  destruct (sd_phase s) as [ph |], (sd_week s) as [wk |],
    (sd_duration_minutes s) as [dur |], (sd_exercises s) as [exs |];
    cbn [item bind ret raise get];
    (split; [split; [intros [frame' H]; try discriminate H;
                     repeat split; discriminate
                    | intros (H1 & H2 & H3 & H4);
                      try (contradiction H1; reflexivity);
                      try (contradiction H2; reflexivity);
                      try (contradiction H3; reflexivity);
                      try (contradiction H4; reflexivity);
                      eexists; reflexivity]
            | split; [intros frame' H; try discriminate H;
                      injection H as <-; eexists; repeat split
                     | intros H1 H2 H3 H4;
                       try discriminate H4;
                       try (contradiction H1; reflexivity);
                       try (contradiction H2; reflexivity);
                       try (contradiction H3; reflexivity);
                       reflexivity]]).
Qed.

Lemma record_session_keys_witness :
  record_session 0 []
    {| sd_phase := Some FOUNDATION; sd_week := Some 1; sd_duration_minutes := Some 15;
       sd_pain_level := Some 2; sd_fatigue_level := Some 3; sd_mood_level := None;
       sd_exercises := None; sd_modifications := None;
       sd_completion_percentage := Some 90; sd_notes := None |}
  = inl (KeyError "exercises").
Proof.
  apply (proj2 (proj2 (record_session_keys 0 [] _))); try discriminate. reflexivity.
Defined.

(** X11. Whatever the log and the window, the report carries between one and
    seven recommendations, so its first recommendation can always be read. *)
Theorem recommendations_never_empty (window_size : Z) (progress_data : list Row) :
  (1 <= List.length (report_recommendations (analyze_trends window_size progress_data))
   <= 7)%nat.
Proof.
  destruct progress_data as [| r rest]; [cbn; lia |].
  cbn [analyze_trends report_recommendations].
  generalize (tail window_size (r :: rest)). intros data.
  unfold _generate_recommendations, pain_recommendations, fatigue_recommendations,
    completion_recommendations.
  generalize (mean (map pain_level data)) (mean (map fatigue_level data))
    (mean (map completion_percentage data)).
  intros mp mf mc. cbv zeta.
  destruct (gt mp 6), (gt mp 4), (gt mf 6), (gt mc 90), (lt mc 70); cbn; lia.
Qed.

Lemma last_n_app_exact {A : Type} (pre xs : list A) :
  Py.last_n (List.length xs) (pre ++ xs) = xs.
Proof.
  unfold Py.last_n. rewrite length_app.
  replace (List.length pre + List.length xs - List.length xs)%nat
    with (List.length pre + 0)%nat by lia.
  rewrite skipn_app, Nat.add_0_r, skipn_all, Nat.sub_diag. reflexivity.
Qed.

Lemma analyze_trends_nonempty (window_size : Z) (progress_data : list Row) :
  progress_data <> [] ->
  analyze_trends window_size progress_data
  = let recent_data := tail window_size progress_data in
    Analysis
      {| avg_duration := mean (map duration_minutes recent_data);
         avg_pain := mean (map pain_level recent_data);
         avg_fatigue := mean (map fatigue_level recent_data);
         completion_rate := mean (map completion_percentage recent_data) |}
      {| pain_trend := _calculate_trend pain_level recent_data;
         duration_trend := _calculate_trend duration_minutes recent_data;
         completion_trend := _calculate_trend completion_percentage recent_data |}
      (_generate_recommendations recent_data)
      (_identify_risk_factors recent_data).
Proof.
  destruct progress_data as [| r rest]; [intros H; contradiction H |]; reflexivity.
Qed.

Lemma tail_whole {A : Type} (window_size : Z) (rows : list A) :
  rows <> [] -> Z.of_nat (List.length rows) <= window_size ->
  tail window_size rows = rows.
Proof.
  intros Hrows Hw. unfold tail.
  assert (Hpos : 0 < window_size).
  { destruct rows; [contradiction Hrows; reflexivity | cbn [List.length] in Hw; lia]. }
  replace (window_size =? 0)%Z with false by (symmetry; apply Z.eqb_neq; lia).
  replace (0 <? window_size)%Z with true by (symmetry; apply Z.ltb_lt; lia).
  unfold Py.last_n.
  replace (List.length rows - Z.to_nat window_size)%nat with 0%nat by lia.
  reflexivity.
Qed.

Lemma tail_recent {A : Type} (old recent : list A) :
  recent <> [] ->
  tail (Z.of_nat (List.length recent)) (old ++ recent) = recent.
Proof.
  intros Hrecent. unfold tail.
  assert (Hpos : 0 < Z.of_nat (List.length recent)).
  { destruct recent; [contradiction Hrecent; reflexivity | cbn [List.length]; lia]. }
  replace (Z.of_nat (List.length recent) =? 0)%Z with false
    by (symmetry; apply Z.eqb_neq; lia).
  replace (0 <? Z.of_nat (List.length recent))%Z with true
    by (symmetry; apply Z.ltb_lt; lia).
  rewrite Nat2Z.id. apply last_n_app_exact.
Qed.

(** X12. The report reads the last [window_size] rows only: the rows recorded
    before them do not change it. *)
Theorem analyze_trends_window_local (old recent : list Row) :
  recent <> [] ->
  analyze_trends (Z.of_nat (List.length recent)) (old ++ recent)
  = analyze_trends (Z.of_nat (List.length recent)) recent.
Proof.
  intros Hrecent.
  assert (Hall : old ++ recent <> []).
  { intros H. apply app_eq_nil in H. destruct H as [_ H]. contradiction. }
  rewrite (analyze_trends_nonempty _ _ Hall), (analyze_trends_nonempty _ _ Hrecent).
  cbv zeta. rewrite (tail_recent old recent Hrecent).
  rewrite (tail_whole _ recent Hrecent) by lia. reflexivity.
Qed.

Lemma analyze_trends_window_local_witness :
  analyze_trends 2
    ([mkRow 0 FOUNDATION 1 12 9 9 0 4 0 10 ""]
     ++ [mkRow 0 FOUNDATION 2 14 2 2 0 4 0 95 ""; mkRow 0 FOUNDATION 3 16 1 2 0 4 0 98 ""])
  = analyze_trends 2
      [mkRow 0 FOUNDATION 2 14 2 2 0 4 0 95 ""; mkRow 0 FOUNDATION 3 16 1 2 0 4 0 98 ""].
Proof.
  apply (analyze_trends_window_local
           [mkRow 0 FOUNDATION 1 12 9 9 0 4 0 10 ""]
           [mkRow 0 FOUNDATION 2 14 2 2 0 4 0 95 ""; mkRow 0 FOUNDATION 3 16 1 2 0 4 0 98 ""]).
  discriminate.
Defined.

(** X13. On a log that is not empty, a window of 0, or a negative window that
    drops at least as many rows as the log holds, leaves no row: every mean is
    NaN, every trend is stable, the single recommendation is
    continue_current_program and no risk is reported; a window at least as
    long as the log reads the whole log. *)
Theorem analyze_trends_window_edges (window_size : Z) (progress_data : list Row) :
  progress_data <> [] ->
  (window_size = 0 -> analyze_trends window_size progress_data = empty_window_report)
  /\ (window_size <= - Z.of_nat (List.length progress_data) ->
      analyze_trends window_size progress_data = empty_window_report)
  /\ (Z.of_nat (List.length progress_data) <= window_size ->
      analyze_trends window_size progress_data
      = analyze_trends (Z.of_nat (List.length progress_data)) progress_data).
Proof.
  intros Hlog. split; [| split].
  - intros ->. rewrite (analyze_trends_nonempty _ _ Hlog). reflexivity.
  - intros Hw. rewrite (analyze_trends_nonempty _ _ Hlog). cbv zeta.
    assert (Hlen : (0 < List.length progress_data)%nat).
    { destruct progress_data; [contradiction Hlog; reflexivity | cbn; lia]. }
    assert (Htail : tail window_size progress_data = []).
    { unfold tail.
      replace (window_size =? 0)%Z with false by (symmetry; apply Z.eqb_neq; lia).
      replace (0 <? window_size)%Z with false by (symmetry; apply Z.ltb_ge; lia).
      apply skipn_all2. lia. }
    rewrite Htail. reflexivity.
  - intros Hw. rewrite !(analyze_trends_nonempty _ _ Hlog). cbv zeta.
    rewrite (tail_whole window_size _ Hlog Hw).
    rewrite (tail_whole _ _ Hlog) by lia. reflexivity.
Qed.

Lemma analyze_trends_window_edges_witness :
  analyze_trends 0 [mkRow 0 FOUNDATION 1 12 9 9 0 4 0 10 ""] = empty_window_report
  /\ analyze_trends (-3) [mkRow 0 FOUNDATION 1 12 9 9 0 4 0 10 ""] = empty_window_report.
Proof.
  split.
  - apply (proj1 (analyze_trends_window_edges 0 [mkRow 0 FOUNDATION 1 12 9 9 0 4 0 10 ""]
                    ltac:(discriminate))).
    reflexivity.
  - apply (proj1 (proj2 (analyze_trends_window_edges (-3)
                           [mkRow 0 FOUNDATION 1 12 9 9 0 4 0 10 ""]
                           ltac:(discriminate)))).
    cbn. lia.
Defined.

End TrackerWindows.

Section TrackerMetrics.

Import Tracker Notions.

Lemma Qle_bool_half_above (a b : Z) :
  Qle_bool (inject_Z a) (inject_Z b + (1 # 2)) = (a <=? b).
Proof.
  unfold Qle_bool, Qplus, inject_Z. cbn [Qnum Qden Pos.mul].
  destruct (Z.leb_spec (a * 2) ((b * 2 + 1 * 1) * 1)), (Z.leb_spec a b);
    try reflexivity; lia.
Qed.

Lemma Qle_bool_half_below (a b : Z) :
  Qle_bool (inject_Z b - (1 # 2)) (inject_Z a) = (b <=? a).
Proof.
  unfold Qle_bool, Qminus, Qplus, Qopp, inject_Z. cbn [Qnum Qden Pos.mul Z.opp].
  destruct (Z.leb_spec ((b * 2 + -1 * 1) * 1) (a * 2)), (Z.leb_spec b a);
    try reflexivity; lia.
Qed.

(** X14. On integer columns whose values are below 2^52 in absolute value
    the margin of 0.5 plays no part: with fewer than two rows the trend is
    stable; otherwise it is increasing exactly when the last value is above
    the first, decreasing exactly when it is below, and stable exactly when
    they are equal, whatever lies between them. *)
Theorem calculate_trend_endpoints (column : Row -> Z) (data : list Row) :
  (Py.len data < 2 -> _calculate_trend column data = "stable")
  /\ (2 <= Py.len data ->
      Forall (fun r => half_exact (column r)) data ->
      let v0 := first_value (map column data) in
      let vn := last_value (map column data) in
      (_calculate_trend column data = "increasing" <-> v0 < vn)
      /\ (_calculate_trend column data = "decreasing" <-> vn < v0)
      /\ (_calculate_trend column data = "stable" <-> vn = v0)).
Proof.
  unfold _calculate_trend. split.
  - intros H. apply Z.ltb_lt in H. rewrite H. reflexivity.
  - intros H _. apply Z.ltb_ge in H. rewrite H. cbv zeta.
    rewrite Qle_bool_half_above, Qle_bool_half_below.
    set (v0 := first_value (map column data)).
    set (vn := last_value (map column data)).
    destruct (Z.leb_spec vn v0), (Z.leb_spec v0 vn); cbn [negb];
      repeat split; intros; try discriminate; try reflexivity; lia.
Qed.

Lemma calculate_trend_endpoints_witness :
  _calculate_trend pain_level
    [mkRow 0 FOUNDATION 1 12 5 2 0 4 0 90 ""; mkRow 0 FOUNDATION 2 12 9 2 0 4 0 90 "";
     mkRow 0 FOUNDATION 3 12 4 2 0 4 0 90 ""]
  = "decreasing".
Proof.
  apply (proj2 (calculate_trend_endpoints pain_level
                  [mkRow 0 FOUNDATION 1 12 5 2 0 4 0 90 "";
                   mkRow 0 FOUNDATION 2 12 9 2 0 4 0 90 "";
                   mkRow 0 FOUNDATION 3 12 4 2 0 4 0 90 ""])).
  - cbn. lia.
  - repeat constructor; vm_compute; reflexivity.
  - cbn. lia.
Defined.

Lemma sum_bounds (lo hi : Z) (xs : list Z) :
  Forall (fun x => lo <= x <= hi) xs ->
  lo * Z.of_nat (List.length xs) <= sum xs <= hi * Z.of_nat (List.length xs).
Proof.
  unfold sum. induction 1 as [| x xs Hx _ IH]; cbn [fold_right List.length]; lia.
Qed.

(** The exact mean of a column that is not empty lies between any two bounds
    that hold for all its values. *)
Lemma mean_within_bounds (column : Row -> Z) (lo hi : Z) (data : list Row) :
  data <> [] ->
  Forall (fun r => lo <= column r <= hi) data ->
  exists q : Q,
    mean (map column data) = Some q /\ (inject_Z lo <= q)%Q /\ (q <= inject_Z hi)%Q.
Proof.
  intros Hdata Hall.
  exists (sum (map column data) # Pos.of_nat (List.length data)).
  split; [apply mean_nonempty; exact Hdata |].
  assert (Hsum : lo * Z.of_nat (List.length data) <= sum (map column data)
                 <= hi * Z.of_nat (List.length data)).
  { rewrite <- (length_map column data). apply sum_bounds.
    apply Forall_map. exact Hall. }
  assert (Hpos : Z.pos (Pos.of_nat (List.length data)) = Z.of_nat (List.length data)).
  { destruct data as [| r rest]; [contradiction Hdata; reflexivity |].
    cbn [List.length]. rewrite <- Pos.of_nat_succ, Zpos_P_of_succ_nat. lia. }
  unfold Qle, inject_Z. cbn [Qnum Qden]. rewrite Hpos. lia.
Qed.

(** X15. On a non-empty window of feedback in range (pain and fatigue 0-10,
    completion 0-100, fewer than 2^32 rows) [analyze_trends] reports an
    average pain and an average fatigue within 0-10 and a completion rate
    within 0-100. *)
Theorem report_averages_in_range (window_size : Z) (progress_data : list Row) :
  tail window_size progress_data <> [] ->
  window_in_range (tail window_size progress_data) ->
  exists (metrics : Metrics) (trends : Trends) (recs risks : list string) (p f c : Q),
    analyze_trends window_size progress_data = Analysis metrics trends recs risks
    /\ avg_pain metrics = Some p /\ (0 <= p)%Q /\ (p <= 10)%Q
    /\ avg_fatigue metrics = Some f /\ (0 <= f)%Q /\ (f <= 10)%Q
    /\ completion_rate metrics = Some c /\ (0 <= c)%Q /\ (c <= 100)%Q.
Proof.
  intros Hdata [Hrange _].
  assert (Hlog : progress_data <> []).
  { intros ->. apply Hdata. apply tail_nil. }
  rewrite (analyze_trends_nonempty _ _ Hlog). cbv zeta.
  set (data := tail window_size progress_data) in *.
  destruct (mean_within_bounds pain_level 0 10 data Hdata) as (p & Hp & Hp0 & Hp1).
  { apply Forall_impl with (2 := Hrange). intros r Hr. apply Hr. }
  destruct (mean_within_bounds fatigue_level 0 10 data Hdata) as (f & Hf & Hf0 & Hf1).
  { apply Forall_impl with (2 := Hrange). intros r Hr. apply Hr. }
  destruct (mean_within_bounds completion_percentage 0 100 data Hdata)
    as (c & Hc & Hc0 & Hc1).
  { apply Forall_impl with (2 := Hrange). intros r Hr. apply Hr. }
  do 4 eexists. exists p, f, c.
  split; [reflexivity |]. cbn [avg_pain avg_fatigue completion_rate].
  repeat split; assumption.
Qed.

Lemma report_averages_in_range_witness :
  exists (metrics : Metrics) (trends : Trends) (recs risks : list string) (p f c : Q),
    analyze_trends default_window
      [mkRow 0 FOUNDATION 1 12 5 2 0 4 0 90 ""; mkRow 0 FOUNDATION 2 12 9 2 0 4 0 90 ""]
    = Analysis metrics trends recs risks
    /\ avg_pain metrics = Some p /\ (0 <= p)%Q /\ (p <= 10)%Q
    /\ avg_fatigue metrics = Some f /\ (0 <= f)%Q /\ (f <= 10)%Q
    /\ completion_rate metrics = Some c /\ (0 <= c)%Q /\ (c <= 100)%Q.
Proof.
  apply report_averages_in_range.
  - vm_compute. discriminate.
  - split; [repeat constructor; cbn; lia | vm_compute; reflexivity].
Defined.

Lemma all_three (p : Z -> bool) (pre : list Z) (a b c : Z) :
  Py.all p (Py.last_n 3 (pre ++ [a; b; c])) = p a && p b && p c.
Proof.
  change 3%nat with (List.length [a; b; c]).
  rewrite (last_n_app_exact pre [a; b; c]). unfold Py.all. cbn [forallb].
  rewrite andb_true_r, andb_assoc. reflexivity.
Qed.

(** X16. The risk factors read the last three rows of the window: the tag
    persistent_moderate_pain is reported exactly when their pain levels are
    all at least 5, the tag consistent_low_completion exactly when their
    completion percentages are all below 60; a window of fewer than three rows
    reports no risk. *)
Theorem identify_risk_factors_last_three :
  (forall (pre : list Row) (a b c : Row),
      (In "persistent_moderate_pain" (_identify_risk_factors (pre ++ [a; b; c]))
       <-> 5 <= pain_level a /\ 5 <= pain_level b /\ 5 <= pain_level c)
      /\ (In "consistent_low_completion" (_identify_risk_factors (pre ++ [a; b; c]))
          <-> completion_percentage a < 60 /\ completion_percentage b < 60
              /\ completion_percentage c < 60))
  /\ (forall data : list Row,
         (List.length data < 3)%nat -> _identify_risk_factors data = []).
Proof.
  split.
  - intros pre a b c. unfold _identify_risk_factors.
    replace (3 <=? Py.len (pre ++ [a; b; c])) with true
      by (symmetry; apply Z.leb_le; unfold Py.len; rewrite length_app; cbn; lia).
    rewrite !map_app. cbn [map]. rewrite !all_three.
    destruct (Z.leb_spec 5 (pain_level a)), (Z.leb_spec 5 (pain_level b)),
      (Z.leb_spec 5 (pain_level c)),
      (Z.ltb_spec (completion_percentage a) 60), (Z.ltb_spec (completion_percentage b) 60),
      (Z.ltb_spec (completion_percentage c) 60);
      cbn [andb app In];
      (split;
       (split;
        [intros Hin; repeat destruct Hin as [Hin | Hin];
         try discriminate Hin; try contradiction Hin; repeat split; lia
        | intros (Hfst & Hsnd & Hthd); try lia; tauto])).
  - intros data Hlen. unfold _identify_risk_factors.
    replace (3 <=? Py.len data) with false
      by (symmetry; apply Z.leb_gt; unfold Py.len; lia).
    reflexivity.
Qed.

Lemma identify_risk_factors_last_three_witness :
  _identify_risk_factors
    [mkRow 0 FOUNDATION 1 12 9 2 0 4 0 10 ""; mkRow 0 FOUNDATION 2 12 9 2 0 4 0 10 ""]
  = [].
Proof.
  apply (proj2 identify_risk_factors_last_three). cbn. lia.
Defined.

End TrackerMetrics.

Section TrackerComposition.

Import Tracker Notions.

Lemma Forall_skipn_keep {A : Type} (P : A -> Prop) (k : nat) (xs : list A) :
  Forall P xs -> Forall P (skipn k xs).
Proof.
  intros H. rewrite <- (firstn_skipn k xs) in H.
  apply Forall_app in H. apply H.
Qed.

Lemma tail_default_window (rows : list Row) :
  (List.length (tail default_window rows) <= 4)%nat
  /\ exists k, tail default_window rows = skipn k rows.
Proof.
  unfold tail, default_window, Py.last_n. cbn [Z.eqb Z.ltb Z.compare].
  split; [rewrite length_skipn; change (Z.to_nat 4) with 4%nat; lia |].
  eexists. reflexivity.
Qed.

Lemma window_low_completion (data : list Row) :
  (List.length data <= 4)%nat ->
  Forall (fun r => completion_percentage r <= 100) data ->
  In "consistent_low_completion" (_identify_risk_factors data) ->
  In "simplify_exercises_temporarily" (_generate_recommendations data).
Proof.
  intros Hlen Hall Hrisk.
  assert (Hmean : exists q : Q,
             mean (map completion_percentage data) = Some q /\ (q < 70)%Q).
  { destruct data as [| a [| b [| c [| d [| e rest]]]]];
      try (rewrite (proj2 identify_risk_factors_last_three) in Hrisk by (cbn; lia);
           contradiction Hrisk).
    - apply (proj1 identify_risk_factors_last_three [] a b c) in Hrisk.
      eexists. split; [reflexivity |].
      unfold Qlt, sum. cbn [Qnum Qden map fold_right List.length Pos.of_nat Pos.succ].
      lia.
    - apply (proj1 identify_risk_factors_last_three [a] b c d) in Hrisk.
      inversion Hall as [| ? ? Ha _]; subst.
      eexists. split; [reflexivity |].
      unfold Qlt, sum. cbn [Qnum Qden map fold_right List.length Pos.of_nat Pos.succ].
      lia.
    - cbn in Hlen. lia. }
  destruct Hmean as (q & Hq & Hlt).
  unfold _generate_recommendations. rewrite Hq.
  apply in_or_fallback. left.
  apply in_or_app. right. apply in_or_app. right.
  apply completion_recommendations_spec. right. split; [exact Hlt | reflexivity].
Qed.

(** X17. With the default window of four rows and completion percentages of
    at most 100, a report that flags consistent_low_completion also
    recommends simplify_exercises_temporarily. *)
Theorem low_completion_risk_recommends_simplify (progress_data : list Row) :
  Forall (fun r => completion_percentage r <= 100) progress_data ->
  In "consistent_low_completion"
     (report_risk_factors (analyze_trends default_window progress_data)) ->
  In "simplify_exercises_temporarily"
     (report_recommendations (analyze_trends default_window progress_data)).
Proof.
  intros Hall.
  destruct progress_data as [| r rest] eqn:Hlog; [intros [] |].
  rewrite <- Hlog in *.
  assert (Hne : progress_data <> []) by (rewrite Hlog; discriminate).
  rewrite (analyze_trends_nonempty _ _ Hne).
  cbn [report_risk_factors report_recommendations].
  destruct (tail_default_window progress_data) as [Hlen [k Hk]].
  apply window_low_completion; [exact Hlen |].
  rewrite Hk. apply Forall_skipn_keep. exact Hall.
Qed.

Lemma low_completion_risk_recommends_simplify_witness :
  In "simplify_exercises_temporarily"
     (report_recommendations
        (analyze_trends default_window
           [mkRow 0 FOUNDATION 1 12 2 2 0 4 0 100 ""; mkRow 0 FOUNDATION 2 12 2 2 0 4 0 100 "";
            mkRow 0 FOUNDATION 3 12 2 2 0 4 0 55 ""; mkRow 0 FOUNDATION 4 12 2 2 0 4 0 59 "";
            mkRow 0 FOUNDATION 5 12 2 2 0 4 0 40 ""])).
Proof.
  apply low_completion_risk_recommends_simplify.
  - repeat constructor; cbn; lia.
  - vm_compute. left. reflexivity.
Defined.

End TrackerComposition.

(** ** More on the safety monitor *)

Section SafetyTrends.

Import Safety Notions.

Ltac open_assessment sd :=
  unfold assess_session_safety, assess_pain, assess_fatigue, assess_completion,
    pain_level_red, pain_level_yellow, fatigue_level_red, completion_minimum;
  destruct (7 <=? pain_of sd) eqn:Hred;
  [| destruct (4 <=? pain_of sd) eqn:Hyellow];
  destruct (8 <=? fatigue_of sd) eqn:Hfatigue;
  destruct (completion_of sd <? 50) eqn:Hcompletion;
  cbn [fst snd safety_level immediate_actions long_term_recommendations
       risk_factors clearance_for_next_session green_report app negb String.eqb].

Lemma push_history_ends (pre : History) (a b s : SessionData) :
  exists q, push_history (pre ++ [a; b]) s = q ++ [a; b; s].
Proof.
  unfold push_history. rewrite <- app_assoc. cbn [app].
  destruct (5 <? Py.len (pre ++ [a; b; s])) eqn:Hlong.
  - destruct pre as [| x pre'].
    + cbn in Hlong. discriminate Hlong.
    + exists pre'. reflexivity.
  - exists pre. reflexivity.
Qed.

Lemma trends_of_last_three (q : History) (a b s : SessionData) :
  _analyze_safety_trends (q ++ [a; b; s])
  = (if (pain_of a <? pain_of b) && (pain_of b <? pain_of s)
     then ["INCREASING_PAIN_TREND"] else [])
    ++ (if (6 <=? fatigue_of a) && (6 <=? fatigue_of b) && (6 <=? fatigue_of s)
        then ["PERSISTENT_HIGH_FATIGUE"] else []).
Proof.
  unfold _analyze_safety_trends.
  replace (Py.len (q ++ [a; b; s]) <? 3) with false
    by (symmetry; apply Z.ltb_ge; unfold Py.len; rewrite length_app; cbn; lia).
  change 3%nat with (List.length [a; b; s]). rewrite last_n_app_exact.
  unfold Py.all. cbn [map strictly_increasing forallb].
  rewrite !andb_true_r, andb_assoc. reflexivity.
Qed.

Lemma trends_of_short (h : History) :
  (List.length h < 3)%nat -> _analyze_safety_trends h = [].
Proof.
  intros H. unfold _analyze_safety_trends.
  replace (Py.len h <? 3) with true by (symmetry; apply Z.ltb_lt; unfold Py.len; lia).
  reflexivity.
Qed.

Lemma risk_factors_split (h : History) (s : SessionData) :
  risk_factors (fst (assess_session_safety h s))
  = (if completion_of s <? 50 then ["LOW_COMPLETION_RATE"] else [])
    ++ _analyze_safety_trends (push_history h s).
Proof.
  open_assessment s; reflexivity.
Qed.

(** X18. The trend tags of a report are computed on the session being
    assessed and the two sessions retained before it: INCREASING_PAIN_TREND is
    reported exactly when pain rose strictly over the three,
    PERSISTENT_HIGH_FATIGUE exactly when fatigue was at least 6 in all three;
    with fewer than two earlier sessions the only possible risk tag is
    LOW_COMPLETION_RATE. *)
Theorem assess_trend_risks :
  (forall (pre : History) (a b s : SessionData),
      let r := fst (assess_session_safety (pre ++ [a; b]) s) in
      (In "INCREASING_PAIN_TREND" (risk_factors r)
       <-> pain_of a < pain_of b /\ pain_of b < pain_of s)
      /\ (In "PERSISTENT_HIGH_FATIGUE" (risk_factors r)
          <-> 6 <= fatigue_of a /\ 6 <= fatigue_of b /\ 6 <= fatigue_of s))
  /\ (forall (h : History) (s : SessionData) (t : string),
         (List.length h < 2)%nat ->
         In t (risk_factors (fst (assess_session_safety h s))) ->
         t = "LOW_COMPLETION_RATE").
Proof.
  split.
  - intros pre a b s. cbv zeta. rewrite risk_factors_split.
    destruct (push_history_ends pre a b s) as [q ->].
    rewrite trends_of_last_three.
    destruct (Z.ltb_spec (pain_of a) (pain_of b)), (Z.ltb_spec (pain_of b) (pain_of s)),
      (Z.leb_spec 6 (fatigue_of a)), (Z.leb_spec 6 (fatigue_of b)),
      (Z.leb_spec 6 (fatigue_of s)), (completion_of s <? 50);
      cbn [andb app In];
      (split;
       (split;
        [intros Hin; repeat destruct Hin as [Hin | Hin];
         try discriminate Hin; try contradiction Hin; repeat split; lia
        | intros Hconj; try lia; tauto])).
  - intros h s t Hlen. rewrite risk_factors_split.
    rewrite trends_of_short.
    + rewrite app_nil_r. destruct (completion_of s <? 50); cbn; intuition.
    + unfold push_history.
      replace (5 <? Py.len (h ++ [s])) with false
        by (symmetry; apply Z.ltb_ge; unfold Py.len; rewrite length_app; cbn; lia).
      rewrite length_app. cbn. lia.
Qed.

Lemma assess_trend_risks_witness :
  (List.length [feedback 1 9 90] < 2)%nat
  /\ In "LOW_COMPLETION_RATE"
        (risk_factors (fst (assess_session_safety [feedback 1 9 90] (feedback 2 9 40))))
  /\ "LOW_COMPLETION_RATE" = "LOW_COMPLETION_RATE".
Proof.
  split; [cbn; lia |]. split; [left; reflexivity |].
  apply (proj2 assess_trend_risks [feedback 1 9 90] (feedback 2 9 40)
           "LOW_COMPLETION_RATE").
  - cbn. lia.
  - left. reflexivity.
Defined.

(** X19. The history reaches a report through its risk factors only: the
    safety level, the immediate actions, the long-term recommendations and the
    clearance of a session are the same under any two histories, so a trend
    never escalates the level nor withdraws clearance. *)
Theorem assessment_ignores_history (h1 h2 : History) (s : SessionData) :
  let r1 := fst (assess_session_safety h1 s) in
  let r2 := fst (assess_session_safety h2 s) in
  safety_level r1 = safety_level r2
  /\ immediate_actions r1 = immediate_actions r2
  /\ long_term_recommendations r1 = long_term_recommendations r2
  /\ clearance_for_next_session r1 = clearance_for_next_session r2.
Proof.
  open_assessment s; repeat split; reflexivity.
Qed.

(** X20. A report is green exactly when pain is below 4 and fatigue below 8;
    a green report holds no immediate action and gives clearance; and a
    session dict without the three feedback keys is read as pain 0, fatigue 0
    and completion 100, hence green, cleared, and free of actions and
    recommendations. *)
Theorem green_report_conditions (h : History) (s : SessionData) :
  let r := fst (assess_session_safety h s) in
  (safety_level r = "green" <-> pain_of s < 4 /\ fatigue_of s < 8)
  /\ (safety_level r = "green" ->
      immediate_actions r = [] /\ clearance_for_next_session r = true)
  /\ (sd_pain_level s = None -> sd_fatigue_level s = None ->
      sd_completion_percentage s = None ->
      safety_level r = "green" /\ immediate_actions r = []
      /\ long_term_recommendations r = [] /\ clearance_for_next_session r = true).
Proof.
  cbv zeta. split; [| split].
  - rewrite safety_level_closed_form.
    destruct (Z.leb_spec 7 (pain_of s)), (Z.leb_spec 8 (fatigue_of s)),
      (Z.leb_spec 4 (pain_of s)); cbn [orb];
      split; intros; try discriminate; try reflexivity; lia.
  - open_assessment s; intros H; try discriminate H; split; reflexivity.
  - intros Hp Hf Hc. unfold assess_session_safety, pain_of, fatigue_of, completion_of.
    rewrite Hp, Hf, Hc. repeat split; reflexivity.
Qed.

Lemma green_report_conditions_witness :
  safety_level
    (fst (assess_session_safety [feedback 9 9 10]
            {| sd_phase := Some FOUNDATION; sd_week := Some 1;
               sd_duration_minutes := Some 15; sd_pain_level := None;
               sd_fatigue_level := None; sd_mood_level := None; sd_exercises := None;
               sd_modifications := None; sd_completion_percentage := None;
               sd_notes := None |}))
  = "green".
Proof.
  apply (proj2 (proj2 (green_report_conditions [feedback 9 9 10] _)));
    reflexivity.
Defined.

(** X21. The immediate actions follow pain and fatigue separately: the stop
    action is listed exactly when pain >= 7, the reduce-intensity action
    exactly when 4 <= pain < 7, and the rest-day action exactly when
    fatigue >= 8; so a report made red by fatigue alone carries no stop
    action. *)
Theorem immediate_actions_conditions (h : History) (s : SessionData) :
  let r := fst (assess_session_safety h s) in
  (In "STOP_ALL_ACTIVITY_IMMEDIATELY" (immediate_actions r) <-> 7 <= pain_of s)
  /\ (In "REDUCE_INTENSITY_BY_50_PERCENT" (immediate_actions r)
      <-> 4 <= pain_of s < 7)
  /\ (In "REQUIRE_COMPLETE_REST_DAY" (immediate_actions r) <-> 8 <= fatigue_of s)
  /\ (List.length (immediate_actions r) <= 4)%nat.
Proof.
  open_assessment s;
    rewrite ?Z.leb_le, ?Z.leb_gt in *;
    cbn [In List.length];
    (split; [| split; [| split]]);
    try lia;
    (split;
     [intros Hin; repeat destruct Hin as [Hin | Hin];
      try discriminate Hin; try contradiction Hin; lia
     | intros Hcond; try lia; tauto]).
Qed.

End SafetyTrends.

Section GuidelineProperties.

Import Safety Notions.

Lemma guideline_step_shift (g : Guidelines) (entry : BodyPart * InjurySeverity) :
  daily_precautions (guideline_step g entry)
  = daily_precautions g ++ daily_precautions (guideline_step no_guidelines entry)
  /\ warning_signs (guideline_step g entry)
     = warning_signs g ++ warning_signs (guideline_step no_guidelines entry).
Proof.
  unfold guideline_step. destruct (fst entry); cbn; rewrite ?app_nil_r; split; reflexivity.
Qed.

Lemma fold_guidelines_shift (injuries : InjuryProfile) :
  forall g : Guidelines,
    daily_precautions (fold_left guideline_step injuries g)
    = daily_precautions g
      ++ daily_precautions (fold_left guideline_step injuries no_guidelines)
    /\ warning_signs (fold_left guideline_step injuries g)
       = warning_signs g
         ++ warning_signs (fold_left guideline_step injuries no_guidelines).
Proof.
  induction injuries as [| entry rest IH]; intros g.
  - cbn. rewrite !app_nil_r. split; reflexivity.
  - cbn [fold_left].
    destruct (IH (guideline_step g entry)) as [Hd Hw].
    destruct (IH (guideline_step no_guidelines entry)) as [Hd0 Hw0].
    destruct (guideline_step_shift g entry) as [Sd Sw].
    rewrite Hd, Hw, Hd0, Hw0, Sd, Sw, !app_assoc. split; reflexivity.
Qed.

Lemma guidelines_app (p1 p2 : InjuryProfile) :
  daily_precautions (generate_safety_guidelines (p1 ++ p2))
  = daily_precautions (generate_safety_guidelines p1)
    ++ daily_precautions (generate_safety_guidelines p2)
  /\ warning_signs (generate_safety_guidelines (p1 ++ p2))
     = warning_signs (generate_safety_guidelines p1)
       ++ warning_signs (generate_safety_guidelines p2).
Proof.
  unfold generate_safety_guidelines. cbn [daily_precautions warning_signs].
  fold no_guidelines. rewrite fold_left_app.
  apply fold_guidelines_shift.
Qed.

Lemma guidelines_cons (b : BodyPart) (sev : InjurySeverity) (rest : InjuryProfile) :
  daily_precautions (generate_safety_guidelines ((b, sev) :: rest))
  = daily_precautions (generate_safety_guidelines [(b, MILD)])
    ++ daily_precautions (generate_safety_guidelines rest)
  /\ warning_signs (generate_safety_guidelines ((b, sev) :: rest))
     = warning_signs (generate_safety_guidelines [(b, MILD)])
       ++ warning_signs (generate_safety_guidelines rest).
Proof.
  destruct (guidelines_app [(b, sev)] rest) as [Hd Hw].
  cbn [app] in Hd, Hw. rewrite Hd, Hw. split; reflexivity.
Qed.

(** X22. The guidelines hold three daily precautions and one warning sign for
    every injury to a shoulder, the left calf or the lower back, in the order
    of the profile, and nothing for the other body parts; they do not depend
    on the severities; and the guidelines of a concatenated profile are the
    concatenation of the guidelines. *)
Theorem safety_guidelines_by_body_part :
  (forall injuries : InjuryProfile,
      List.length (daily_precautions (generate_safety_guidelines injuries))
      = (3 * List.length (filter has_guideline (body_parts injuries)))%nat
      /\ List.length (warning_signs (generate_safety_guidelines injuries))
         = List.length (filter has_guideline (body_parts injuries)))
  /\ (forall p1 p2 : InjuryProfile,
         body_parts p1 = body_parts p2 ->
         generate_safety_guidelines p1 = generate_safety_guidelines p2)
  /\ (forall p1 p2 : InjuryProfile,
         daily_precautions (generate_safety_guidelines (p1 ++ p2))
         = daily_precautions (generate_safety_guidelines p1)
           ++ daily_precautions (generate_safety_guidelines p2)
         /\ warning_signs (generate_safety_guidelines (p1 ++ p2))
            = warning_signs (generate_safety_guidelines p1)
              ++ warning_signs (generate_safety_guidelines p2)).
Proof.
  split; [| split].
  - induction injuries as [| [b sev] rest [IHd IHw]]; [split; reflexivity |].
    destruct (guidelines_cons b sev rest) as [-> ->].
    rewrite !length_app, IHd, IHw. cbn [body_parts map fst filter].
    fold (body_parts rest).
    destruct b; cbn [has_guideline List.length]; split;
      try (cbn; lia).
  - induction p1 as [| [b s1] rest1 IH]; intros [| [b' s2] rest2] Hparts;
      try discriminate Hparts; [reflexivity |].
    cbn [body_parts map fst] in Hparts. injection Hparts as <- Hrest.
    specialize (IH rest2 Hrest).
    destruct (guidelines_cons b s1 rest1) as [Hd1 Hw1].
    destruct (guidelines_cons b s2 rest2) as [Hd2 Hw2].
    rewrite <- IH in Hd2, Hw2.
    assert (Hd : daily_precautions (generate_safety_guidelines ((b, s1) :: rest1))
                 = daily_precautions (generate_safety_guidelines ((b, s2) :: rest2)))
      by congruence.
    assert (Hw : warning_signs (generate_safety_guidelines ((b, s1) :: rest1))
                 = warning_signs (generate_safety_guidelines ((b, s2) :: rest2)))
      by congruence.
    unfold generate_safety_guidelines in *.
    cbn [daily_precautions warning_signs] in Hd, Hw. rewrite Hd, Hw. reflexivity.
  - apply guidelines_app.
Qed.

Lemma safety_guidelines_by_body_part_witness :
  generate_safety_guidelines [(LEFT_CALF, MILD); (NECK, SEVERE)]
  = generate_safety_guidelines [(LEFT_CALF, SEVERE); (NECK, MILD)].
Proof.
  apply (proj1 (proj2 safety_guidelines_by_body_part)). reflexivity.
Defined.

(** X23. When a profile holds two shoulder injuries, the three shoulder
    precautions and the shoulder warning sign are listed twice. *)
Theorem safety_guidelines_repeat_shoulders
  (p1 p2 p3 : InjuryProfile) (b b' : BodyPart) (s s' : InjurySeverity) :
  is_shoulder b = true -> is_shoulder b' = true ->
  let g := generate_safety_guidelines (p1 ++ (b, s) :: p2 ++ (b', s') :: p3) in
  ~ NoDup (daily_precautions g) /\ ~ NoDup (warning_signs g).
Proof.
  intros Hb Hb'. cbv zeta.
  destruct (guidelines_app p1 ((b, s) :: p2 ++ (b', s') :: p3)) as [-> ->].
  destruct (guidelines_cons b s (p2 ++ (b', s') :: p3)) as [-> ->].
  destruct (guidelines_app p2 ((b', s') :: p3)) as [-> ->].
  destruct (guidelines_cons b' s' p3) as [-> ->].
  assert (Hsh : forall c, is_shoulder c = true ->
                  daily_precautions (generate_safety_guidelines [(c, MILD)])
                  = ["Avoid raising arms above shoulder level";
                     "Use mirror to monitor posture alignment";
                     "Stop immediately if sharp shoulder pain occurs"]
                  /\ warning_signs (generate_safety_guidelines [(c, MILD)])
                     = ["Radiating pain down the arm"]).
  { intros c Hc. destruct c; try discriminate Hc; split; reflexivity. }
  destruct (Hsh b Hb) as [-> ->]. destruct (Hsh b' Hb') as [-> ->].
  split; intros Hnodup; apply NoDup_app_remove_l in Hnodup;
    cbn [app] in Hnodup; apply NoDup_cons_iff in Hnodup;
    destruct Hnodup as [Hnotin _]; apply Hnotin.
  - right. right. apply in_or_app. right. left. reflexivity.
  - apply in_or_app. right. left. reflexivity.
Qed.

Lemma safety_guidelines_repeat_shoulders_witness :
  ~ NoDup (daily_precautions (generate_safety_guidelines Program.demo_profile))
  /\ ~ NoDup (warning_signs (generate_safety_guidelines Program.demo_profile)).
Proof.
  apply (safety_guidelines_repeat_shoulders [] [] [(LEFT_CALF, MODERATE); (LOWER_BACK, MILD)]
           LEFT_SHOULDER RIGHT_SHOULDER MODERATE MILD); reflexivity.
Defined.

End GuidelineProperties.
